(** * The local text-generation service of Kairos

    A shallow embedding of [llm-backend/local_llm_service.py]: the
    [LocalLLMService] class (model registry, generation with fallback,
    canned answers), the command-line entry point and the handler of
    [POST /generate].

    Python values are dynamically typed, so the prompt, the sampling
    parameters and whatever the text-generation pipeline returns are values
    of one type [pyval]; every operation that Python checks at run time
    returns [Raise] where Python raises.  Only exceptions deriving from
    [Exception] are modelled.  Calls to [logger] are left out, except for the
    evaluation of their arguments where it can raise. *)

From Stdlib Require Import ZArith QArith String Ascii List Lia.
From stdpp Require Import gmap strings list fin_maps.

(** ** Python [str]

    A [str] whose code points are all below 256 is the Rocq string with the
    same code points. *)
Module PyStr.

(** [c.isspace()] on code points below 256: TAB..CR, FS..US, SPACE, NEL
    and NO-BREAK SPACE. *)
Definition is_space (c : ascii) : bool :=
  let n := N_of_ascii c in
  ((9 <=? n) && (n <=? 13) || (28 <=? n) && (n <=? 32)
   || (n =? 133) || (n =? 160))%N.

(** [c.lower()] on code points below 256: A..Z and the Latin-1 capitals
    (all of 192..222 but the multiplication sign 215) move up by 32. *)
Definition lower_char (c : ascii) : ascii :=
  let n := N_of_ascii c in
  if ((65 <=? n) && (n <=? 90)
      || (192 <=? n) && (n <=? 222) && negb (n =? 215))%N
  then ascii_of_N (n + 32) else c.

(** [s.lower()] *)
Fixpoint lower (s : string) : string :=
  match s with
  | EmptyString => EmptyString
  | String c r => String (lower_char c) (lower r)
  end.

(** [hay.startswith(needle)] *)
Fixpoint starts_with (needle hay : string) : bool :=
  match needle, hay with
  | EmptyString, _ => true
  | String _ _, EmptyString => false
  | String a n, String b h => if Ascii.eqb a b then starts_with n h else false
  end.

(** [needle in hay] *)
Fixpoint contains (needle hay : string) : bool :=
  if starts_with needle hay then true
  else match hay with
       | EmptyString => false
       | String _ h => contains needle h
       end.

(** [s.lstrip()] *)
Fixpoint lstrip (s : string) : string :=
  match s with
  | EmptyString => EmptyString
  | String c r => if is_space c then lstrip r else s
  end.

(** [s.rstrip()] *)
Fixpoint rstrip (s : string) : string :=
  match s with
  | EmptyString => EmptyString
  | String c r =>
      match rstrip r with
      | EmptyString => if is_space c then EmptyString else String c EmptyString
      | r' => String c r'
      end
  end.

(** [s.strip()] *)
Definition strip (s : string) : string := rstrip (lstrip s).

(** [s.isspace() or s == ''] : every character is white space. *)
Fixpoint blank (s : string) : bool :=
  match s with
  | EmptyString => true
  | String c r => is_space c && blank r
  end.

(** [s[:n]] *)
Definition slice_to (n : nat) (s : string) : string := String.substring 0 n s.

End PyStr.

(** ** Python values and exceptions *)
Module Py.

(** An exception object: its class name and [str(e)]. *)
Record Exn := mkExn { exn_class : string; exn_msg : string }.

(** The result of evaluating an expression or running a statement. *)
Inductive res (A : Type) : Type :=
  | Ok (a : A)
  | Raise (e : Exn).
Arguments Ok {A} a.
Arguments Raise {A} e.

(** The values that reach the service: what [json] decoding produces and
    what is built from literals.  A float is given by its decimal value. *)
#[warnings="-register-all"] Inductive pyval : Type :=
  | PNone
  | PBool (b : bool)
  | PInt (z : Z)
  | PFloat (q : Q)
  | PStr (s : string)
  | PList (l : list pyval)
  | PDict (d : gmap string pyval).

Definition AttributeError (m : string) : Exn := mkExn "AttributeError" m.
Definition TypeError (m : string) : Exn := mkExn "TypeError" m.
Definition KeyError (m : string) : Exn := mkExn "KeyError" m.
Definition IndexError (m : string) : Exn := mkExn "IndexError" m.

(** [bool(v)], the test of [if v] and [not v]. *)
Definition truthy (v : pyval) : bool :=
  match v with
  | PNone => false
  | PBool b => b
  | PInt z => negb (z =? 0)%Z
  | PFloat q => negb (Qeq_bool q 0)
  | PStr s => negb (String.eqb s EmptyString)
  | PList l => match l with [] => false | _ :: _ => true end
  | PDict d => negb (bool_decide (d = ∅))
  end.

(** [len(v)] *)
Definition py_len (v : pyval) : res Z :=
  match v with
  | PStr s => Ok (Z.of_nat (String.length s))
  | PList l => Ok (Z.of_nat (length l))
  | PDict d => Ok (Z.of_nat (size d))
  | _ => Raise (TypeError "object has no len()")
  end.

(** [v[k]] for an integer or a string [k], the two uses in the source:
    [responses[0]] and [...['generated_text']]. *)
Definition py_getitem (v k : pyval) : res pyval :=
  match v, k with
  | PList l, PInt i =>
      let j := (if i <? 0 then Z.of_nat (length l) + i else i)%Z in
      if (j <? 0)%Z then Raise (IndexError "list index out of range")
      else match l !! Z.to_nat j with
           | Some x => Ok x
           | None => Raise (IndexError "list index out of range")
           end
  | PStr s, PInt i =>
      let j := (if i <? 0 then Z.of_nat (String.length s) + i else i)%Z in
      if (j <? 0)%Z then Raise (IndexError "string index out of range")
      else match String.get (Z.to_nat j) s with
           | Some c => Ok (PStr (String c EmptyString))
           | None => Raise (IndexError "string index out of range")
           end
  | PDict d, PStr key =>
      match d !! key with
      | Some x => Ok x
      | None => Raise (KeyError key)
      end
  | PDict _, _ => Raise (KeyError "0")
  | PList _, _ => Raise (TypeError "list indices must be integers or slices")
  | PStr _, _ => Raise (TypeError "string indices must be integers")
  | _, _ => Raise (TypeError "object is not subscriptable")
  end.

(** [v[:n]] *)
Definition py_slice_to (n : nat) (v : pyval) : res pyval :=
  match v with
  | PStr s => Ok (PStr (PyStr.slice_to n s))
  | PList l => Ok (PList (take n l))
  | PDict _ => Raise (TypeError "unhashable type: 'slice'")
  | _ => Raise (TypeError "object is not subscriptable")
  end.

(** [v.lower()] *)
Definition py_lower (v : pyval) : res string :=
  match v with
  | PStr s => Ok (PyStr.lower s)
  | _ => Raise (AttributeError "object has no attribute 'lower'")
  end.

(** [v.strip()] *)
Definition py_strip (v : pyval) : res string :=
  match v with
  | PStr s => Ok (PyStr.strip s)
  | _ => Raise (AttributeError "object has no attribute 'strip'")
  end.

(** [v.get(key, dflt)] *)
Definition py_get (v : pyval) (key : string) (dflt : pyval) : res pyval :=
  match v with
  | PDict d => Ok (default dflt (d !! key))
  | _ => Raise (AttributeError "object has no attribute 'get'")
  end.

End Py.
Import Py.

(** ** The fallback responder (lines 139-179) *)

(** lines 142-157: the text returned by the first branch. *)
Definition business_case_template : string :=
  "# Business Case Analysis

Based on the project requirements, this initiative presents a compelling opportunity for organizational improvement. 

**Key Benefits:**
- Enhanced operational efficiency through automation
- Reduced manual effort and error rates  
- Improved scalability and performance
- Strategic competitive positioning

**Investment Considerations:**
- Initial implementation costs balanced by long-term savings
- Risk mitigation through phased approach
- Strong ROI potential based on efficiency gains

**Recommendation:** Proceed with detailed planning and stakeholder alignment to maximize project success.".

(** lines 160-172: the text returned by the second branch. *)
Definition feasibility_template : string :=
  "# Feasibility Assessment

The proposed project demonstrates strong viability across multiple dimensions:

**Technical Feasibility:** High - leveraging proven technologies and methodologies
**Financial Feasibility:** Positive - reasonable investment with measurable returns  
**Operational Feasibility:** Strong - aligns with current capabilities and growth objectives
**Strategic Feasibility:** Excellent - supports long-term organizational goals

**Risk Factors:** Manageable through proper planning and change management
**Timeline:** Achievable with dedicated resources and stakeholder support

**Overall Assessment:** PROCEED - Project shows high probability of success with appropriate execution.".

(** lines 175-179: the text returned by the last branch (an f-string without
    replacement fields, so a constant). *)
Definition generic_template : string :=
  "Based on the requirements outlined, this represents a valuable initiative that can drive significant organizational benefits.

Key considerations include strategic alignment, resource allocation, and implementation approach. Success will depend on effective planning, stakeholder engagement, and execution excellence.

Recommend proceeding with detailed analysis and structured implementation planning.".

(** [LocalLLMService.generate_fallback_response]: [prompt.lower()] is
    evaluated by the first test and again by the second. *)
Definition generate_fallback_response (prompt : pyval) : res string :=
  match py_lower prompt with
  | Raise e => Raise e
  | Ok low =>
      if PyStr.contains "business case" low then Ok business_case_template
      else
        match py_lower prompt with
        | Raise e => Raise e
        | Ok low' =>
            if PyStr.contains "feasibility" low' then Ok feasibility_template
            else Ok generic_template
        end
  end.

(** ** The external collaborators

    The inference library ([transformers], [torch]), [pip] and [argparse]
    are not part of the program.  The program sees them through the calls
    below; each may read and change the world outside the interpreter
    (installed packages, model files, the random generator). *)

(** What the program reads of a tokenizer. *)
Record Tokenizer := mkTokenizer {
  tok_source : string;
  padding_side : string;
  pad_token : option string;
  eos_token : option string;
  eos_token_id : option Z
}.

Definition set_pad_token (t : Tokenizer) (v : option string) : Tokenizer :=
  mkTokenizer (tok_source t) (padding_side t) v (eos_token t) (eos_token_id t).

(** Keyword arguments of [AutoModelForCausalLM.from_pretrained] (lines 70-75). *)
Record ModelKwargs := mkModelKwargs {
  torch_dtype : string;
  device_map : option string;
  low_cpu_mem_usage : bool
}.

(** The pipeline object: the arguments of [pipeline(...)] (lines 78-88). *)
Record Generator (Model : Type) := mkGenerator {
  g_task : string;
  g_model : Model;
  g_tokenizer : Tokenizer;
  g_device : Z;
  g_return_full_text : bool;
  g_do_sample : bool;
  g_temperature : Q;
  g_max_length : Z;
  g_pad_token_id : option Z
}.
Arguments mkGenerator {Model}.
Arguments g_tokenizer {Model}.

(** Keyword arguments of the call [generator(prompt, ...)] (lines 117-125). *)
Record GenKwargs := mkGenKwargs {
  max_new_tokens : pyval;
  temperature : pyval;
  do_sample : bool;
  top_p : Q;
  repetition_penalty : Q;
  pad_token_id : option Z
}.

(** The namespace [argparse] builds for [main] (lines 182-189). *)
Record Args := mkArgs {
  arg_install : bool;
  arg_model : string;
  arg_prompt : option string;
  arg_max_length : Z;
  arg_temperature : Q
}.

Class Collaborators := {
  World : Type;
  Model : Type;
  (** first execution of [import m], for [m] not in [sys.modules] *)
  exec_module : string -> World -> res unit * World;
  (** [subprocess.check_call([sys.executable, "-m", "pip", "install", pkg])] *)
  pip_install : string -> World -> res unit * World;
  (** [torch.cuda.is_available()] *)
  cuda_is_available : World -> bool;
  (** [AutoTokenizer.from_pretrained(name, padding_side=side)] *)
  tokenizer_from_pretrained : string -> string -> World -> res Tokenizer * World;
  (** [AutoModelForCausalLM.from_pretrained(name, ...)] *)
  model_from_pretrained : string -> ModelKwargs -> World -> res Model * World;
  (** [pipeline("text-generation", ...)]: accepts the arguments or raises *)
  pipeline_init : Generator Model -> World -> res unit * World;
  (** [generator(prompt, ...)] *)
  generator_call : Generator Model -> pyval -> GenKwargs -> World -> res pyval * World;
  (** [parser.parse_args()]: a namespace, or [SystemExit] with a code *)
  parse_args : list string -> Args + Z
}.

(** ** The service *)
Section Service.
Context `{Collaborators}.

(** The dict stored per model name (lines 90-94). *)
Record Handle := mkHandle {
  generator : Generator Model;
  tokenizer : Tokenizer;
  model : Model
}.

(** The attributes of a [LocalLLMService] object. *)
Record LocalLLMService := mkService {
  models : gmap string Handle;
  current_model : option string
}.

(** [LocalLLMService.__init__] (lines 18-20) *)
Definition init : LocalLLMService := mkService ∅ None.

(** A call that leaves the interpreter. *)
Inductive Call :=
  | CallExecModule (m : string)
  | CallPip (pkg : string)
  | CallTokenizer (name : string)
  | CallModel (name : string)
  | CallPipeline (name : string)
  | CallGenerator (prompt : pyval).

(** The running process: the service object, the imported modules, the
    world outside, the calls made so far and what was printed. *)
Record Proc := mkProc {
  service : LocalLLMService;
  sys_modules : gset string;
  world : World;
  calls : list Call;
  stdout : list string
}.

Definition set_service (s : LocalLLMService) (p : Proc) : Proc :=
  mkProc s (sys_modules p) (world p) (calls p) (stdout p).

(** A statement: runs in a process, returns or raises, leaves a process. *)
Definition M (A : Type) : Type := Proc -> res A * Proc.

Definition ret {A} (a : A) : M A := fun p => (Ok a, p).
Definition raise {A} (e : Exn) : M A := fun p => (Raise e, p).
Definition bind {A B} (c : M A) (k : A -> M B) : M B :=
  fun p => match c p with
           | (Ok a, p') => k a p'
           | (Raise e, p') => (Raise e, p')
           end.
Definition lift {A} (r : res A) : M A := fun p => (r, p).

(** [try: body  except Exception as e: handler e].  Whatever the body did
    to the process before it raised stays done. *)
Definition try_except {A} (body : M A) (handler : Exn -> M A) : M A :=
  fun p => match body p with
           | (Ok a, p') => (Ok a, p')
           | (Raise e, p') => handler e p'
           end.

(** A call to a collaborator: recorded, run on the world. *)
Definition extern {A} (c : Call) (f : World -> res A * World) : M A :=
  fun p => let (r, w) := f (world p) in
           (r, mkProc (service p) (sys_modules p) w (calls p ++ [c]) (stdout p)).

Definition get_service : M LocalLLMService := fun p => (Ok (service p), p).
Definition put_service (s : LocalLLMService) : M unit :=
  fun p => (Ok tt, set_service s p).
Definition print (s : string) : M unit :=
  fun p => (Ok tt, mkProc (service p) (sys_modules p) (world p) (calls p)
                          (stdout p ++ [s])).

End Service.

Declare Scope py_scope.
Delimit Scope py_scope with py.
Notation "x <- c ;; k" := (bind c (fun x => k))
  (at level 90, c at next level, right associativity) : py_scope.
Notation "c ;;; k" := (bind c (fun _ => k))
  (at level 90, right associativity) : py_scope.

Section Operations.
Context `{Collaborators}.
Local Open Scope py_scope.

(** [try: body  except <classes>: handler]: an exception of another
    class goes on to the caller. *)
Definition try_catch {A} (catches : Exn -> bool) (body : M A)
    (handler : Exn -> M A) : M A :=
  fun p => match body p with
           | (Ok a, p') => (Ok a, p')
           | (Raise e, p') => if catches e then handler e p' else (Raise e, p')
           end.

(** [import m]: nothing to do for a module already in [sys.modules];
    a module whose execution raises is not entered there. *)
Definition py_import (m : string) : M unit :=
  fun p =>
    if bool_decide (m ∈ sys_modules p) then (Ok tt, p)
    else
      match exec_module m (world p) with
      | (Ok _, w) =>
          (Ok tt, mkProc (service p) ({[m]} ∪ sys_modules p) w
                         (calls p ++ [CallExecModule m]) (stdout p))
      | (Raise e, w) =>
          (Raise e, mkProc (service p) (sys_modules p) w
                           (calls p ++ [CallExecModule m]) (stdout p))
      end.

Definition torch_cuda_is_available : M bool :=
  fun p => (Ok (cuda_is_available (world p)), p).

(** [isinstance(e, ImportError)] *)
Definition is_ImportError (e : Exn) : bool :=
  String.eqb (exn_class e) "ImportError"
  || String.eqb (exn_class e) "ModuleNotFoundError".

(** [isinstance(e, subprocess.CalledProcessError)] *)
Definition is_CalledProcessError (e : Exn) : bool :=
  String.eqb (exn_class e) "CalledProcessError".

(** lines 33-38 *)
Definition packages : list string :=
  [ "transformers>=4.35.0"; "torch>=2.0.0";
    "sentencepiece>=0.1.99"; "accelerate>=0.20.0" ]%string.

(** The loop of lines 40-48. *)
Fixpoint install_packages (pkgs : list string) : M bool :=
  match pkgs with
  | [] => ret true
  | package :: rest =>
      fun p =>
        match extern (CallPip package) (pip_install package) p with
        | (Ok _, p') => install_packages rest p'
        | (Raise e, p') =>
            if is_CalledProcessError e then (Ok false, p') else (Raise e, p')
        end
  end.

(** [LocalLLMService.install_dependencies] (lines 22-48).  The import of
    [subprocess], a module of the standard library, is taken to succeed. *)
Definition install_dependencies : M bool :=
  try_catch is_ImportError
    (py_import "transformers" ;;; py_import "torch" ;;; ret true)
    (fun _ => install_packages packages).

(** Lines 63-94 up to the insertion: tokenizer, pad token, model,
    pipeline.  This is the setup path of the adapter. *)
Definition load_model_setup (model_name : string) : M Handle :=
  tokenizer <- extern (CallTokenizer model_name)
                 (tokenizer_from_pretrained model_name "left") ;;
  let tokenizer :=
    match pad_token tokenizer with
    | None => set_pad_token tokenizer (eos_token tokenizer)
    | Some _ => tokenizer
    end in
  cuda <- torch_cuda_is_available ;;
  model <- extern (CallModel model_name)
             (model_from_pretrained model_name
                (mkModelKwargs "float32" (if cuda then Some "auto"%string else None) true)) ;;
  cuda' <- torch_cuda_is_available ;;
  let generator :=
    mkGenerator "text-generation" model tokenizer (if cuda' then 0 else -1)%Z
                false true (7 # 10) 1024 (eos_token_id tokenizer) in
  extern (CallPipeline model_name) (pipeline_init generator) ;;;
  ret (mkHandle generator tokenizer model).

(** The body of the [try] of [load_model] (lines 53-99). *)
Definition load_model_try (model_name : string) : M bool :=
  py_import "transformers" ;;;
  py_import "torch" ;;;
  s <- get_service ;;
  match models s !! model_name with
  | None =>
      h <- load_model_setup model_name ;;
      s' <- get_service ;;
      put_service (mkService (<[model_name := h]> (models s')) (current_model s'))
  | Some _ => ret tt
  end ;;;
  s <- get_service ;;
  put_service (mkService (models s) (Some model_name)) ;;;
  ret true.

(** [LocalLLMService.load_model] (lines 50-103) *)
Definition load_model (model_name : string) : M bool :=
  try_except (load_model_try model_name) (fun _ => ret false).

(** The handle [generate_text] uses: that of the current model, when a
    current model is set and is a key of [models] (line 108). *)
Definition current_handle (s : LocalLLMService) : option Handle :=
  match current_model s with
  | None => None
  | Some current => models s !! current
  end.

(** The keyword arguments of lines 119-124. *)
Definition sampling (generator : Generator Model) (max_length temperature : pyval)
    : GenKwargs :=
  mkGenKwargs max_length temperature true (9 # 10) (11 # 10)
              (eos_token_id (g_tokenizer generator)).

(** The body of the [try] of [generate_text] (lines 108-133). *)
Definition generate_text_try (prompt max_length temperature : pyval) : M string :=
  s <- get_service ;;
  match current_model s with
  | None => lift (generate_fallback_response prompt)
  | Some current =>
      match models s !! current with
      | None => lift (generate_fallback_response prompt)
      | Some h =>
          let generator := generator h in
          lift (py_slice_to 100 prompt) ;;;
          responses <- extern (CallGenerator prompt)
                         (generator_call generator prompt
                            (sampling generator max_length temperature)) ;;
          nonempty <- (if truthy responses
                       then n <- lift (py_len responses) ;; ret (0 <? n)%Z
                       else ret false) ;;
          if nonempty : bool then
            first <- lift (py_getitem responses (PInt 0)) ;;
            text <- lift (py_getitem first (PStr "generated_text")) ;;
            generated_text <- lift (py_strip text) ;;
            ret generated_text
          else lift (generate_fallback_response prompt)
      end
  end.

(** [LocalLLMService.generate_text] (lines 105-137) *)
Definition generate_text (prompt max_length temperature : pyval) : M string :=
  try_except (generate_text_try prompt max_length temperature)
             (fun _ => lift (generate_fallback_response prompt)).

(** [main] (lines 181-215).  [SystemExit] raised by [parse_args] ends the
    process with its code, as returning that code to [sys.exit] does. *)
Definition main (argv : list string) : M Z :=
  match parse_args argv with
  | inr code => ret code
  | inl args =>
      put_service init ;;;
      installed <- (if arg_install args then install_dependencies else ret true) ;;
      if negb installed then ret 1%Z
      else
        match arg_prompt args with
        | Some prompt =>
            if truthy (PStr prompt) then
              loaded <- load_model (arg_model args) ;;
              if loaded : bool then
                result <- generate_text (PStr prompt) (PInt (arg_max_length args))
                            (PFloat (arg_temperature args)) ;;
                print result ;;;
                ret 0%Z
              else ret 1%Z
            else ret 0%Z
        | None => ret 0%Z
        end
  end.

(** What a request handler returns: a status and a JSON object. *)
Record Response := mkResponse {
  status : Z;
  json : gmap string pyval
}.

(** The handler of [POST /generate] (lines 224-252); [body] is what
    [request.get_json()] returns or raises. *)
Definition http_generate_text (body : res pyval) : M Response :=
  try_except
    (data <- lift body ;;
     prompt <- lift (py_get data "prompt" (PStr EmptyString)) ;;
     max_length <- lift (py_get data "max_length" (PInt 500)) ;;
     temperature <- lift (py_get data "temperature" (PFloat (7 # 10))) ;;
     if negb (truthy prompt) then
       ret (mkResponse 400 {[ "error"%string := PStr "No prompt provided" ]})
     else
       lift (py_slice_to 100 prompt) ;;;
       result <- generate_text prompt max_length temperature ;;
       ret (mkResponse 200 (<[ "generated_text"%string := PStr result ]>
                              {[ "status"%string := PStr "success" ]})))
    (fun e =>
       ret (mkResponse 500 (<[ "error"%string := PStr (exn_msg e) ]>
                              {[ "status"%string := PStr "error" ]}))).

(** [start_server] up to [app.run] (lines 217-222). *)
Definition start_server : M unit :=
  py_import "flask" ;;; put_service init.

(** How the script ends. *)
Inductive Termination :=
  | Exit (code : Z)
  | Serving.

(** An exception nobody caught ends the process with code 1. *)
Definition exit_of {A} (f : A -> Termination) (r : res A * Proc) : Termination * Proc :=
  match r with
  | (Ok a, p) => (f a, p)
  | (Raise _, p) => (Exit 1, p)
  end.

(** The dispatch under [if __name__ == "__main__"] (lines 265-272);
    [argv] is [sys.argv]. *)
Definition run_script (argv : list string) (p : Proc) : Termination * Proc :=
  if bool_decide (argv !! 1%nat = Some "--install"%string) then
    exit_of (fun _ => Exit 0) ((put_service init ;;; install_dependencies) p)
  else if bool_decide (argv !! 1%nat = Some "--server"%string) then
    exit_of (fun _ => Serving) (start_server p)
  else
    exit_of Exit (main (drop 1 argv) p).

(** ** Reachable states of the registry *)

Inductive Op :=
  | OpLoad (model_name : string)
  | OpGenerate (prompt max_length temperature : pyval).

Definition run_op (o : Op) (p : Proc) : Proc :=
  match o with
  | OpLoad n => snd (load_model n p)
  | OpGenerate a b c => snd (generate_text a b c p)
  end.

(** From a process whose service object is fresh, by loads and generations. *)
Inductive reachable : Proc -> Prop :=
  | reachable_init p : service p = init -> reachable p
  | reachable_step o p : reachable p -> reachable (run_op o p).

(** What the data model asks of the registry, and what the cache test of
    [load_model] relies on: a current model is a key of [models], and a
    registry that holds a model was filled after both imports. *)
Definition registry_ok (p : Proc) : Prop :=
  (forall n, current_model (service p) = Some n -> n ∈ dom (models (service p)))
  /\ (models (service p) <> ∅ ->
      "transformers"%string ∈ sys_modules p /\ "torch"%string ∈ sys_modules p).

(** A statement that leaves the service object alone and forgets no
    imported module. *)
Definition quiet {A} (c : M A) : Prop :=
  forall p, service (snd (c p)) = service p
            /\ sys_modules p ⊆ sys_modules (snd (c p)).

(** How many times the setup path was entered. *)
Definition is_setup (c : Call) : bool :=
  match c with CallTokenizer _ => true | _ => false end.

Fixpoint setup_count (cs : list Call) : nat :=
  match cs with
  | [] => 0
  | c :: r => (if is_setup c then 1 else 0) + setup_count r
  end.

End Operations.

(** ** Two small environments to run the service in *)
Module Demo.

(** The tokenizer of a GPT-2 family model: no pad token. *)
Definition gpt2_tokenizer (name side : string) : Tokenizer :=
  mkTokenizer name side None (Some "<|endoftext|>"%string) (Some 50256%Z).

(** The pipeline answers [ping] and produces only a line break for any
    other prompt. *)
Definition answer (prompt : pyval) : pyval :=
  match prompt with
  | PStr "ping" =>
      PList [PDict {[ "generated_text"%string := PStr "  pong
" ]}]
  | _ =>
      PList [PDict {[ "generated_text"%string := PStr "
" ]}]
  end.

(** Reads [--install], [--model m] and [--prompt t]; anything else is a
    usage error, which [argparse] reports with code 2. *)
Fixpoint parse (argv : list string) (a : Args) : Args + Z :=
  match argv with
  | [] => inl a
  | "--install"%string :: r =>
      parse r (mkArgs true (arg_model a) (arg_prompt a) (arg_max_length a) (arg_temperature a))
  | "--model"%string :: m :: r =>
      parse r (mkArgs (arg_install a) m (arg_prompt a) (arg_max_length a) (arg_temperature a))
  | "--prompt"%string :: t :: r =>
      parse r (mkArgs (arg_install a) (arg_model a) (Some t) (arg_max_length a) (arg_temperature a))
  | _ => inr 2%Z
  end.

Definition defaults : Args :=
  mkArgs false "microsoft/DialoGPT-small" None 800 (7 # 10).

(** Everything is installed; one model can be loaded; the world counts
    the calls of the pipeline. *)
Definition online : Collaborators := {|
  World := nat;
  Model := string;
  exec_module := fun _ w => (Ok tt, w);
  pip_install := fun _ w => (Ok tt, w);
  cuda_is_available := fun _ => false;
  tokenizer_from_pretrained := fun name side w =>
    if String.eqb name "microsoft/DialoGPT-small"
    then (Ok (gpt2_tokenizer name side), w)
    else (Raise (mkExn "OSError" "not a valid model identifier"), w);
  model_from_pretrained := fun name _ w => (Ok name, w);
  pipeline_init := fun _ w => (Ok tt, w);
  generator_call := fun _ prompt _ w => (Ok (answer prompt), S w);
  parse_args := fun argv => parse argv defaults
|}.

(** Nothing is installed and nothing can be installed. *)
Definition offline : Collaborators := {|
  World := unit;
  Model := unit;
  exec_module := fun m w =>
    (Raise (mkExn "ModuleNotFoundError" ("No module named " +:+ m)), w);
  pip_install := fun _ w =>
    (Raise (mkExn "CalledProcessError" "returned non-zero exit status 1"), w);
  cuda_is_available := fun _ => false;
  tokenizer_from_pretrained := fun _ _ w => (Raise (mkExn "RuntimeError" "unreachable"), w);
  model_from_pretrained := fun _ _ w => (Raise (mkExn "RuntimeError" "unreachable"), w);
  pipeline_init := fun _ w => (Raise (mkExn "RuntimeError" "unreachable"), w);
  generator_call := fun _ _ _ w => (Raise (mkExn "RuntimeError" "unreachable"), w);
  parse_args := fun argv => parse argv defaults
|}.

(** The default of [--model]. *)
Definition dialogpt : string := "microsoft/DialoGPT-small".

(** A process that has just started. *)
Definition boot `{Collaborators} (w : World) : Proc :=
  mkProc init ∅ w [] [].

(** [online] after [load_model("microsoft/DialoGPT-small")]. *)
Definition loaded : @Proc online :=
  snd (@load_model online dialogpt (@boot online 0%nat)).

End Demo.

(** ** Vocabulary for the properties of the whole program *)

(** A text that neither begins nor ends with white space. *)
Fixpoint last_char (c : ascii) (s : string) : ascii :=
  match s with
  | EmptyString => c
  | String d r => last_char d r
  end.

Definition str_trimmed (s : string) : bool :=
  match s with
  | EmptyString => true
  | String c r => negb (PyStr.is_space c) && negb (PyStr.is_space (last_char c r))
  end.

Section Vocabulary.
Context `{Collaborators}.

(** The packages handed to [pip], in the order of the calls. *)
Fixpoint pip_calls (cs : list Call) : list string :=
  match cs with
  | [] => []
  | CallPip pkg :: r => pkg :: pip_calls r
  | _ :: r => pip_calls r
  end.

(** How many times the setup path was entered for one name. *)
Fixpoint setup_count_of (name : string) (cs : list Call) : nat :=
  match cs with
  | [] => 0
  | CallTokenizer n :: r => (if String.eqb n name then 1 else 0) + setup_count_of name r
  | _ :: r => setup_count_of name r
  end.

(** The calls of the pipeline. *)
Fixpoint generator_calls (cs : list Call) : nat :=
  match cs with
  | [] => 0
  | CallGenerator _ :: r => S (generator_calls r)
  | _ :: r => generator_calls r
  end.

(** A sequence of loads and generations on one service object. *)
Definition run_ops (ops : list Op) (p : Proc) : Proc :=
  foldl (fun q o => run_op o q) p ops.

(** The server handling requests one after the other; each request is
    given by what [request.get_json()] returns or raises for it. *)
Definition serve (bodies : list (res pyval)) (p : Proc) : Proc :=
  foldl (fun q body => snd (http_generate_text body q)) p bodies.

(** What lines 78-94 make of a handle: the pipeline holds the tokenizer
    and the model stored beside it, pads with the end-of-sequence id, and
    the tokenizer lacks a pad token only if it lacks an end-of-sequence
    token too. *)
Definition handle_coherent (h : Handle) : Prop :=
  g_tokenizer (generator h) = tokenizer h
  /\ g_model _ (generator h) = model h
  /\ g_pad_token_id _ (generator h) = eos_token_id (tokenizer h)
  /\ g_task _ (generator h) = "text-generation"%string
  /\ g_return_full_text _ (generator h) = false
  /\ (pad_token (tokenizer h) = None -> eos_token (tokenizer h) = None).

(** Lines 67-68: the end-of-sequence token stands in for a missing pad
    token. *)
Definition with_pad_token (t : Tokenizer) : Tokenizer :=
  match pad_token t with
  | None => set_pad_token t (eos_token t)
  | Some _ => t
  end.

(** The setup path of the adapter fails in world [w]: one of the three
    calls of lines 64-88 raises, each made with the arguments the source
    gives it and in the world the call before it left. *)
Inductive setup_fails (name : string) (w : World) : Prop :=
  | tokenizer_fails e w' :
      tokenizer_from_pretrained name "left" w = (Raise e, w') ->
      setup_fails name w
  | model_fails t w1 e w' :
      tokenizer_from_pretrained name "left" w = (Ok t, w1) ->
      model_from_pretrained name
        (mkModelKwargs "float32"
           (if cuda_is_available w1 then Some "auto"%string else None) true) w1
        = (Raise e, w') ->
      setup_fails name w
  | pipeline_fails t w1 m w2 e w' :
      tokenizer_from_pretrained name "left" w = (Ok t, w1) ->
      model_from_pretrained name
        (mkModelKwargs "float32"
           (if cuda_is_available w1 then Some "auto"%string else None) true) w1
        = (Ok m, w2) ->
      pipeline_init
        (mkGenerator "text-generation" m (with_pad_token t)
           (if cuda_is_available w2 then 0 else -1)%Z false true (7 # 10) 1024
           (eos_token_id (with_pad_token t))) w2
        = (Raise e, w') ->
      setup_fails name w.

(** The two imports at the head of [load_model] (lines 56-57) and of
    [install_dependencies] (lines 25-26). *)
Definition import_libraries : M unit :=
  bind (py_import "transformers") (fun _ => py_import "torch").

(** The world after [pip] has installed every package of a list, when
    every call returned. *)
Fixpoint after_pips (pkgs : list string) (w : World) : option World :=
  match pkgs with
  | [] => Some w
  | pkg :: rest =>
      match pip_install pkg w with
      | (Ok _, w') => after_pips rest w'
      | (Raise _, _) => None
      end
  end.

(** A statement that prints nothing. *)
Definition silent {A} (c : M A) : Prop :=
  forall p, stdout (snd (c p)) = stdout p.

End Vocabulary.

(** * Properties *)

(** ** Strings *)
Module PyStrFacts.
Import PyStr.
#[local] Arguments String.append !_ _ / : simpl nomatch.

Lemma starts_with_app (n r : string) : starts_with n (n +:+ r) = true.
Proof.
  induction n as [|c n IH]; simpl; [reflexivity|].
  rewrite Ascii.eqb_refl. exact IH.
Qed.

Lemma starts_with_inv (n h : string) :
  starts_with n h = true -> exists r, h = n +:+ r.
Proof.
  revert h. induction n as [|c n IH]; intros h Hs.
  - exists h. reflexivity.
  - destruct h as [|d h]; simpl in Hs; [discriminate|].
    destruct (Ascii.eqb c d) eqn:E; [|discriminate].
    apply Ascii.eqb_eq in E. subst d.
    destruct (IH h Hs) as [r ->]. exists r. reflexivity.
Qed.

Lemma starts_with_contains (n h : string) :
  starts_with n h = true -> contains n h = true.
Proof. intros Hs. destruct h; simpl; rewrite Hs; reflexivity. Qed.

(** [needle in hay] holds exactly when [hay] is some text, the needle,
    and some more text. *)
Lemma contains_spec (n h : string) :
  contains n h = true <-> exists l r, h = l +:+ n +:+ r.
Proof.
  split.
  - induction h as [|c h IH]; simpl.
    + destruct (starts_with n EmptyString) eqn:E; [|discriminate].
      intros _. apply starts_with_inv in E. destruct E as [r E].
      exists EmptyString, r. exact E.
    + destruct (starts_with n (String c h)) eqn:E.
      * intros _. apply starts_with_inv in E. destruct E as [r E].
        exists EmptyString, r. exact E.
      * intros Hc. destruct (IH Hc) as (l & r & ->).
        exists (String c l), r. reflexivity.
  - intros (l & r & ->). induction l as [|c l IH]; simpl.
    + apply starts_with_contains, starts_with_app.
    + destruct (starts_with n (String c (l +:+ n +:+ r))); [reflexivity|exact IH].
Qed.

Lemma blank_app (a b : string) : blank (a +:+ b) = blank a && blank b.
Proof.
  induction a as [|c a IH]; simpl; [reflexivity|].
  rewrite IH. apply andb_assoc.
Qed.

Lemma lstrip_spec (s : string) :
  exists l, s = l +:+ lstrip s /\ blank l = true.
Proof.
  induction s as [|c s (l & E & B)]; simpl.
  - exists EmptyString. split; reflexivity.
  - destruct (is_space c) eqn:Hc.
    + exists (String c l). simpl. rewrite Hc, B, <- E. split; reflexivity.
    + exists EmptyString. split; reflexivity.
Qed.

Lemma rstrip_spec (s : string) :
  exists r, s = rstrip s +:+ r /\ blank r = true.
Proof.
  induction s as [|c s (r & E & B)]; simpl.
  - exists EmptyString. split; reflexivity.
  - destruct (rstrip s) as [|d t] eqn:R.
    + simpl in E. subst s. destruct (is_space c) eqn:Hc.
      * exists (String c r). simpl. rewrite Hc, B. split; reflexivity.
      * exists r. split; [reflexivity|exact B].
    + exists r. split; [|exact B]. simpl. simpl in E. rewrite <- E. reflexivity.
Qed.

(** Trimming removes white space at both ends, and nothing else. *)
Lemma strip_spec (s : string) :
  exists l r, s = l +:+ strip s +:+ r /\ blank l = true /\ blank r = true.
Proof.
  destruct (lstrip_spec s) as (l & E & Bl).
  destruct (rstrip_spec (lstrip s)) as (r & E' & Br).
  exists l, r. unfold strip. rewrite <- E', <- E. auto.
Qed.

Lemma lstrip_head (s : string) c t : lstrip s = String c t -> is_space c = false.
Proof.
  induction s as [|d s IH]; simpl; [discriminate|].
  destruct (is_space d) eqn:Hd; [exact IH|].
  intros [= -> _]. exact Hd.
Qed.

Lemma rstrip_blank (s : string) : blank s = true -> rstrip s = EmptyString.
Proof.
  induction s as [|c s IH]; simpl; [reflexivity|].
  intros [Hc Hs]%andb_prop. rewrite (IH Hs), Hc. reflexivity.
Qed.

Lemma lstrip_blank (s : string) : blank s = true -> lstrip s = EmptyString.
Proof.
  induction s as [|c s IH]; simpl; [reflexivity|].
  intros [Hc Hs]%andb_prop. rewrite Hc. exact (IH Hs).
Qed.

(** A text of white space only is trimmed to the empty text. *)
Lemma strip_blank (s : string) : blank s = true -> strip s = EmptyString.
Proof. intros B. unfold strip. rewrite (lstrip_blank s B). reflexivity. Qed.

End PyStrFacts.

(** ** The fallback responder *)

Lemma fallback_of_str (s : string) :
  generate_fallback_response (PStr s) =
  Ok (if PyStr.contains "business case" (PyStr.lower s) then business_case_template
      else if PyStr.contains "feasibility" (PyStr.lower s) then feasibility_template
      else generic_template).
Proof.
  unfold generate_fallback_response. simpl.
  destruct (PyStr.contains "business case" (PyStr.lower s)); [reflexivity|].
  destruct (PyStr.contains "feasibility" (PyStr.lower s)); reflexivity.
Qed.

(** The canned answer to a [str] prompt exists and is not empty. *)
Lemma fallback_nonempty (s : string) :
  exists t, generate_fallback_response (PStr s) = Ok t /\ t <> EmptyString.
Proof.
  rewrite fallback_of_str. eexists. split; [reflexivity|].
  destruct (PyStr.contains _ _); [|destruct (PyStr.contains _ _)]; discriminate.
Qed.

(** C7: a prompt whose lower-cased text contains "business case" gets the
    business-case template, which contains "Business Case Analysis" and
    "Recommendation:"; nothing is asked about "feasibility", so the rule
    wins when both keywords occur. *)
Theorem fallback_business_case (s : string) :
  PyStr.contains "business case" (PyStr.lower s) = true ->
  exists t, generate_fallback_response (PStr s) = Ok t
    /\ t = business_case_template
    /\ PyStr.contains "Business Case Analysis" t = true
    /\ PyStr.contains "Recommendation:" t = true.
Proof.
  intros Hb. rewrite fallback_of_str, Hb.
  exists business_case_template. repeat split; vm_compute; reflexivity.
Qed.

(** C2, as amended: a prompt whose lower-cased text contains "feasibility"
    and not "business case" gets the feasibility template, which contains
    "Feasibility Assessment" and "Overall Assessment:** PROCEED" (the
    heading is set in bold, so two asterisks follow the colon). *)
Theorem fallback_feasibility (s : string) :
  PyStr.contains "feasibility" (PyStr.lower s) = true ->
  PyStr.contains "business case" (PyStr.lower s) = false ->
  exists t, generate_fallback_response (PStr s) = Ok t
    /\ t = feasibility_template
    /\ PyStr.contains "Feasibility Assessment" t = true
    /\ PyStr.contains "Overall Assessment:** PROCEED" t = true.
Proof.
  intros Hf Hb. rewrite fallback_of_str, Hb, Hf.
  exists feasibility_template. repeat split; vm_compute; reflexivity.
Qed.

(** C2, as stated, fails: the answer to a feasibility prompt does not
    contain "Overall Assessment: PROCEED". *)
Lemma fallback_feasibility_literal_absent :
  PyStr.contains "feasibility" (PyStr.lower "Give me a feasibility study") = true
  /\ PyStr.contains "business case" (PyStr.lower "Give me a feasibility study") = false
  /\ exists t, generate_fallback_response (PStr "Give me a feasibility study") = Ok t
       /\ PyStr.contains "Overall Assessment: PROCEED" t = false.
Proof.
  split; [vm_compute; reflexivity|]. split; [vm_compute; reflexivity|].
  exists feasibility_template. split; vm_compute; reflexivity.
Qed.

(** C8: a prompt whose lower-cased text contains neither keyword gets the
    generic template, which contains "Recommend proceeding with detailed
    analysis". *)
Theorem fallback_generic (s : string) :
  PyStr.contains "business case" (PyStr.lower s) = false ->
  PyStr.contains "feasibility" (PyStr.lower s) = false ->
  exists t, generate_fallback_response (PStr s) = Ok t
    /\ t = generic_template
    /\ PyStr.contains "Recommend proceeding with detailed analysis" t = true.
Proof.
  intros Hb Hf. rewrite fallback_of_str, Hb, Hf.
  exists generic_template. repeat split; vm_compute; reflexivity.
Qed.

(** ** The registry *)
Create HintDb quiet.

Section Registry.
Context `{Collaborators}.
Local Open Scope py_scope.

Lemma quiet_ret {A} (a : A) : quiet (ret a).
Proof. intros p. split; [reflexivity|set_solver]. Qed.

Lemma quiet_lift {A} (r : res A) : quiet (lift r).
Proof. intros p. split; [reflexivity|set_solver]. Qed.

Lemma quiet_get_service : quiet get_service.
Proof. intros p. split; [reflexivity|set_solver]. Qed.

Lemma quiet_extern {A} c (f : World -> res A * World) : quiet (extern c f).
Proof.
  intros p. unfold extern. destruct (f (world p)). split; [reflexivity|set_solver].
Qed.

Lemma quiet_torch_cuda : quiet torch_cuda_is_available.
Proof. intros p. split; [reflexivity|set_solver]. Qed.

Lemma quiet_import m : quiet (py_import m).
Proof.
  intros p. unfold py_import. case_bool_decide; [split; [reflexivity|set_solver]|].
  destruct (exec_module m (world p)) as [[[]|e] w]; simpl;
    (split; [reflexivity|set_solver]).
Qed.

Lemma quiet_bind {A B} (c : M A) (k : A -> M B) :
  quiet c -> (forall a, quiet (k a)) -> quiet (bind c k).
Proof.
  intros Hc Hk p. unfold bind. destruct (Hc p) as [S1 M1].
  destruct (c p) as [[a|e] p1]; simpl in *.
  - destruct (Hk a p1) as [S2 M2]. split; [congruence|set_solver].
  - split; assumption.
Qed.

Lemma quiet_try_except {A} (c : M A) (h : Exn -> M A) :
  quiet c -> (forall e, quiet (h e)) -> quiet (try_except c h).
Proof.
  intros Hc Hh p. unfold try_except. destruct (Hc p) as [S1 M1].
  destruct (c p) as [[a|e] p1]; simpl in *.
  - split; assumption.
  - destruct (Hh e p1) as [S2 M2]. split; [congruence|set_solver].
Qed.

#[local] Hint Resolve quiet_ret quiet_lift quiet_get_service quiet_extern
  quiet_torch_cuda quiet_import : quiet.

Ltac quiet_step :=
  first [ apply quiet_try_except | apply quiet_bind | solve [auto with quiet] ].

Lemma quiet_setup name : quiet (load_model_setup name).
Proof. unfold load_model_setup. repeat (quiet_step; intros). Qed.

Lemma quiet_generate_text_try a b c : quiet (generate_text_try a b c).
Proof.
  unfold generate_text_try. quiet_step; [quiet_step|]. intros s.
  destruct (current_model s) as [cur|]; [|quiet_step].
  destruct (models s !! cur) as [h|]; [|quiet_step].
  quiet_step; [quiet_step|]. intros _.
  quiet_step; [quiet_step|]. intros responses.
  quiet_step.
  - destruct (truthy responses); repeat (quiet_step; intros).
  - intros [|]; repeat (quiet_step; intros).
Qed.

(** Generation never touches the registry. *)
Lemma quiet_generate_text a b c : quiet (generate_text a b c).
Proof.
  unfold generate_text. apply quiet_try_except;
    [apply quiet_generate_text_try | intros; apply quiet_lift].
Qed.

(** An import that returned has put the module in [sys.modules]. *)
Lemma py_import_ok m p u :
  fst (py_import m p) = Ok u -> m ∈ sys_modules (snd (py_import m p)).
Proof.
  unfold py_import. case_bool_decide as Hm; [intros _; exact Hm|].
  destruct (exec_module m (world p)) as [[[]|e] w]; simpl; [|discriminate].
  intros _. set_solver.
Qed.

(** Importing an imported module does nothing. *)
Lemma py_import_cached m p : m ∈ sys_modules p -> py_import m p = (Ok tt, p).
Proof. intros Hm. unfold py_import. rewrite bool_decide_eq_true_2; done. Qed.

Lemma setup_count_app (a b : list Call) :
  setup_count (a ++ b) = setup_count a + setup_count b.
Proof. induction a as [|c a IH]; simpl; [reflexivity|]. rewrite IH. lia. Qed.

Lemma py_import_count m p :
  setup_count (calls (snd (py_import m p))) = setup_count (calls p).
Proof.
  unfold py_import. case_bool_decide; [reflexivity|].
  destruct (exec_module m (world p)) as [[[]|e] w]; simpl;
    rewrite setup_count_app; simpl; lia.
Qed.

(** Entering the setup path is counted once, whether it succeeds or not. *)
Lemma load_model_setup_count name p :
  setup_count (calls (snd (load_model_setup name p))) = S (setup_count (calls p)).
Proof.
  unfold load_model_setup, bind, extern, torch_cuda_is_available, ret. simpl.
  destruct (tokenizer_from_pretrained name "left" (world p)) as [[t|e] w1]; simpl;
    [|rewrite setup_count_app; simpl; lia].
  destruct (model_from_pretrained _ _ w1) as [[m|e] w2]; simpl;
    [|rewrite !setup_count_app; simpl; lia].
  destruct (pipeline_init _ w2) as [[[]|e] w3]; simpl;
    rewrite !setup_count_app; simpl; lia.
Qed.

(** What the [try] of [load_model] does to the process. *)
Lemma load_model_try_spec name p :
  let out := load_model_try name p in
  sys_modules p ⊆ sys_modules (snd out)
  /\ match fst out with
     | Raise _ => service (snd out) = service p
     | Ok b =>
         b = true
         /\ "transformers"%string ∈ sys_modules (snd out)
         /\ "torch"%string ∈ sys_modules (snd out)
         /\ current_model (service (snd out)) = Some name
         /\ match models (service p) !! name with
            | Some _ =>
                models (service (snd out)) = models (service p)
                /\ setup_count (calls (snd out)) = setup_count (calls p)
            | None =>
                (exists h, models (service (snd out)) = <[name := h]> (models (service p)))
                /\ setup_count (calls (snd out)) = S (setup_count (calls p))
            end
     end.
Proof.
  unfold load_model_try, bind.
  destruct (quiet_import "transformers" p) as [S1 M1].
  pose proof (py_import_ok "transformers" p) as O1.
  pose proof (py_import_count "transformers" p) as C1.
  destruct (py_import "transformers" p) as [[u1|e1] p1]; simpl in *; [|auto].
  destruct (quiet_import "torch" p1) as [S2 M2].
  pose proof (py_import_ok "torch" p1) as O2.
  pose proof (py_import_count "torch" p1) as C2.
  destruct (py_import "torch" p1) as [[u2|e2] p2]; simpl in *;
    [|split; [set_solver|congruence]].
  specialize (O1 _ eq_refl). specialize (O2 _ eq_refl).
  rewrite S2, S1.
  destruct (models (service p) !! name) as [h0|] eqn:L; simpl.
  - split; [set_solver|].
    repeat split; [set_solver|assumption|congruence|congruence].
  - destruct (quiet_setup name p2) as [S3 M3].
    pose proof (load_model_setup_count name p2) as C3.
    destruct (load_model_setup name p2) as [[h|e] p3]; simpl in *;
      [|split; [set_solver|congruence]].
    split; [set_solver|].
    repeat split; [set_solver|set_solver| |].
    + exists h. rewrite S3, S2, S1. reflexivity.
    + congruence.
Qed.

(** [load_model] returns [True] or [False] and never raises. *)
Lemma load_model_total name p :
  fst (load_model name p) = Ok true \/ fst (load_model name p) = Ok false.
Proof.
  unfold load_model, try_except.
  destruct (load_model_try_spec name p) as [_ Hs].
  destruct (load_model_try name p) as [[b|e] p1]; simpl in *.
  - left. destruct Hs as [-> _]. reflexivity.
  - right. reflexivity.
Qed.

(** [load_model] returns what its [try] returns, and [False] when that
    raises; the process is the one the [try] left. *)
Lemma load_model_unfold name p :
  load_model name p =
  (match fst (load_model_try name p) with Ok b => Ok b | Raise _ => Ok false end,
   snd (load_model_try name p)).
Proof.
  unfold load_model, try_except, ret.
  destruct (load_model_try name p) as [[b|e] p1]; reflexivity.
Qed.

(** A load that returns [False] has left the service object as it was. *)
Lemma load_model_false_unchanged name p :
  fst (load_model name p) = Ok false ->
  service (snd (load_model name p)) = service p.
Proof.
  rewrite load_model_unfold. simpl.
  destruct (load_model_try_spec name p) as [_ Hs].
  destruct (fst (load_model_try name p)) as [b|e]; [|intros _; exact Hs].
  destruct Hs as [-> _]. discriminate.
Qed.

(** With both modules imported, loading a cached model only moves the
    current-model pointer. *)
Lemma load_model_hit name p h :
  "transformers"%string ∈ sys_modules p -> "torch"%string ∈ sys_modules p ->
  models (service p) !! name = Some h ->
  load_model name p =
  (Ok true, set_service (mkService (models (service p)) (Some name)) p).
Proof.
  intros Ht Hc L. unfold load_model, try_except, load_model_try, bind.
  rewrite (py_import_cached _ _ Ht), (py_import_cached _ _ Hc). simpl.
  rewrite L. reflexivity.
Qed.

Lemma registry_ok_init p : service p = init -> registry_ok p.
Proof.
  intros E. split; rewrite E; simpl; [discriminate|congruence].
Qed.

Lemma registry_ok_load name p : registry_ok p -> registry_ok (snd (load_model name p)).
Proof.
  intros [Hcur Hmod]. rewrite load_model_unfold. simpl.
  destruct (load_model_try_spec name p) as [Hsub Hs].
  destruct (fst (load_model_try name p)) as [b|e].
  - destruct Hs as (_ & Ht & Hc & Hn & Hm). split; [|auto].
    intros n. rewrite Hn. intros [= <-].
    destruct (models (service p) !! name) as [h|] eqn:L.
    + destruct Hm as [-> _]. apply elem_of_dom. eauto.
    + destruct Hm as [[h ->] _]. apply elem_of_dom. rewrite lookup_insert_eq. eauto.
  - unfold registry_ok. rewrite Hs. split; [exact Hcur|].
    intros Hne. pose proof (Hmod Hne) as [Ht Hc]. split; (eapply elem_of_weaken; [eassumption|assumption]).
Qed.

Lemma registry_ok_generate a b c p :
  registry_ok p -> registry_ok (snd (generate_text a b c p)).
Proof.
  intros [Hcur Hmod]. destruct (quiet_generate_text a b c p) as [E Hsub].
  unfold registry_ok. rewrite E. split; [exact Hcur|]. intros Hne. pose proof (Hmod Hne) as [Ht Hc]. split; (eapply elem_of_weaken; [eassumption|assumption]).
Qed.

Lemma reachable_ok p : reachable p -> registry_ok p.
Proof.
  induction 1 as [p E|o p _ IH]; [exact (registry_ok_init p E)|].
  destruct o; simpl; [apply registry_ok_load|apply registry_ok_generate]; exact IH.
Qed.

(** The setup path raises when one of its three calls does. *)
Lemma setup_fails_raises (name : string) (p : Proc) :
  setup_fails name (world p) ->
  exists e, fst (load_model_setup name p) = Raise e.
Proof.
  intros Hf. unfold load_model_setup, bind, extern, torch_cuda_is_available, ret.
  destruct Hf as [e w' Ht | t w1 e w' Ht Hm | t w1 m w2 e w' Ht Hm Hp];
    cbn [world fst snd]; rewrite Ht; cbn [world fst snd].
  - eauto.
  - rewrite Hm. cbn [fst]. eauto.
  - rewrite Hm. cbn [world fst snd]. unfold with_pad_token in Hp. rewrite Hp.
    cbn [fst]. eauto.
Qed.

(** C4: when the name is not a key, the two imports have returned and the
    setup path of the adapter fails (the tokenizer, the model or the
    pipeline raises, with any exception), [load_model] returns [False] and
    the mapping and the current model are what they were. *)
Theorem load_model_failure_leaves_registry (name : string) (p : Proc) :
  models (service p) !! name = None ->
  fst (import_libraries p) = Ok tt ->
  setup_fails name (world (snd (import_libraries p))) ->
  fst (load_model name p) = Ok false
  /\ models (service (snd (load_model name p))) = models (service p)
  /\ current_model (service (snd (load_model name p))) = current_model (service p).
Proof.
  intros L Himp Hfail.
  assert (Hf : fst (load_model name p) = Ok false).
  { rewrite load_model_unfold. cbn [fst].
    revert Himp Hfail. unfold import_libraries, load_model_try, bind, get_service.
    destruct (quiet_import "transformers" p) as [S1 _].
    destruct (py_import "transformers" p) as [[u1|e1] p1]; cbn [fst snd] in *;
      [|discriminate].
    destruct (quiet_import "torch" p1) as [S2 _].
    destruct (py_import "torch" p1) as [[u2|e2] p2]; cbn [fst snd] in *;
      [|discriminate].
    intros _ Hfail. rewrite S2, S1, L.
    destruct (setup_fails_raises name p2 Hfail) as [e He].
    destruct (load_model_setup name p2) as [[h|e'] p3]; cbn [fst] in *;
      [discriminate|reflexivity]. }
  rewrite (load_model_false_unchanged name p Hf). auto.
Qed.

(** C5: in a reachable process, loading a name that is a key of the
    mapping returns [True], makes no call outside the interpreter (so no
    setup), keeps the mapping and sets the current model to that name;
    and when a first load of a new name has returned [True], a second
    load of it returns [True] and the two loads together have entered the
    setup path exactly once. *)
Theorem load_model_cache_hit (name : string) (p : Proc) :
  reachable p ->
  (name ∈ dom (models (service p)) ->
     fst (load_model name p) = Ok true
     /\ calls (snd (load_model name p)) = calls p
     /\ models (service (snd (load_model name p))) = models (service p)
     /\ current_model (service (snd (load_model name p))) = Some name)
  /\ (name ∉ dom (models (service p)) ->
      fst (load_model name p) = Ok true ->
      name ∈ dom (models (service (snd (load_model name p))))
      /\ fst (load_model name (snd (load_model name p))) = Ok true
      /\ setup_count (calls (snd (load_model name (snd (load_model name p)))))
         = S (setup_count (calls p))).
Proof.
  intros Hreach. split.
  - intros [h L]%elem_of_dom.
    destruct (reachable_ok p Hreach) as [_ Hmod].
    destruct Hmod as [Ht Hc]; [intros E; rewrite E, lookup_empty in L; discriminate|].
    rewrite (load_model_hit name p h Ht Hc L). simpl. auto.
  - intros Hn%not_elem_of_dom Hok.
    rewrite load_model_unfold in Hok. simpl in Hok.
    destruct (load_model_try_spec name p) as [_ Hs].
    set (p1 := snd (load_model name p)).
    assert (E1 : p1 = snd (load_model_try name p))
      by (unfold p1; rewrite load_model_unfold; reflexivity).
    destruct (fst (load_model_try name p)) as [b|e]; [|discriminate].
    destruct Hs as (_ & Ht & Hc & _ & Hm). rewrite Hn in Hm.
    destruct Hm as [[h Hins] Hcount]. rewrite <- E1 in *.
    assert (L1 : models (service p1) !! name = Some h)
      by (rewrite Hins; apply lookup_insert_eq).
    split; [apply elem_of_dom; eauto|].
    rewrite (load_model_hit name p1 h Ht Hc L1). simpl. auto.
Qed.

(** C6: in every process reached from a fresh service object by loads
    and generations, a current model that is set is a key of the
    mapping. *)
Theorem current_model_is_loaded (p : Proc) (n : string) :
  reachable p ->
  current_model (service p) = Some n ->
  n ∈ dom (models (service p)).
Proof. intros Hreach. exact (proj1 (reachable_ok p Hreach) n). Qed.


(** *** Generation *)

Lemma generate_text_no_model (s : string) a b p :
  current_handle (service p) = None ->
  generate_text (PStr s) a b p = (generate_fallback_response (PStr s), p).
Proof.
  intros Hh. unfold generate_text, try_except, generate_text_try, bind, get_service, lift.
  unfold current_handle in Hh. rewrite fallback_of_str.
  destruct (current_model (service p)) as [cur|]; [rewrite Hh|]; reflexivity.
Qed.

(** For a [str] prompt the handler of the [try] cannot raise, so a text
    comes back. *)
Lemma generate_text_total (s : string) a b p :
  exists t, fst (generate_text (PStr s) a b p) = Ok t.
Proof.
  unfold generate_text, try_except, lift.
  destruct (generate_text_try (PStr s) a b p) as [[t|e] p']; simpl; [eauto|].
  rewrite fallback_of_str. eauto.
Qed.

Ltac run_generation Hh Hcall :=
  unfold generate_text, try_except, generate_text_try, bind, get_service, lift, extern;
  unfold current_handle in Hh;
  destruct (current_model (service _)) as [cur|]; [|discriminate];
  rewrite Hh; simpl; rewrite Hcall; simpl.

Lemma generate_text_pipeline_raises (s : string) a b p h e w :
  current_handle (service p) = Some h ->
  generator_call (generator h) (PStr s) (sampling (generator h) a b) (world p)
    = (Raise e, w) ->
  fst (generate_text (PStr s) a b p) = generate_fallback_response (PStr s).
Proof. intros Hh Hcall. run_generation Hh Hcall. reflexivity. Qed.

Lemma generate_text_pipeline_empty (s : string) a b p h responses w :
  current_handle (service p) = Some h ->
  generator_call (generator h) (PStr s) (sampling (generator h) a b) (world p)
    = (Ok responses, w) ->
  truthy responses = false ->
  fst (generate_text (PStr s) a b p) = generate_fallback_response (PStr s).
Proof.
  intros Hh Hcall Hf. run_generation Hh Hcall. rewrite Hf. simpl.
  rewrite fallback_of_str. reflexivity.
Qed.

Lemma generate_text_pipeline_text (s : string) a b p h d rest g w :
  current_handle (service p) = Some h ->
  generator_call (generator h) (PStr s) (sampling (generator h) a b) (world p)
    = (Ok (PList (PDict d :: rest)), w) ->
  d !! "generated_text"%string = Some (PStr g) ->
  fst (generate_text (PStr s) a b p) = Ok (PyStr.strip g).
Proof.
  intros Hh Hcall Hd. run_generation Hh Hcall.
  replace (0 <? Z.pos (Pos.of_succ_nat (length rest)))%Z with true by reflexivity.
  simpl. rewrite Hd. reflexivity.
Qed.

(** C1, as amended: for a [str] prompt [generate_text] returns a text and
    never raises, and leaves the service object as it was.  Without a
    usable current model the text is the canned answer.  With one, the
    text is the canned answer when the pipeline raises or returns
    something false (an empty list, [None]); and when the pipeline returns
    a list whose first element maps "generated_text" to a [str], the text
    is that [str] trimmed, also when nothing is left of it. *)
Theorem generate_text_contract (s : string) (max_length temperature : pyval) (p : Proc) :
  exists t fb,
    fst (generate_text (PStr s) max_length temperature p) = Ok t
    /\ generate_fallback_response (PStr s) = Ok fb
    /\ fb <> EmptyString
    /\ service (snd (generate_text (PStr s) max_length temperature p)) = service p
    /\ (current_handle (service p) = None -> t = fb)
    /\ (forall h, current_handle (service p) = Some h ->
          match fst (generator_call (generator h) (PStr s)
                       (sampling (generator h) max_length temperature) (world p)) with
          | Raise _ => t = fb
          | Ok responses =>
              (truthy responses = false -> t = fb)
              /\ (forall d rest g,
                    responses = PList (PDict d :: rest) ->
                    d !! "generated_text"%string = Some (PStr g) ->
                    t = PyStr.strip g)
          end).
Proof.
  destruct (fallback_nonempty s) as (fb & Hfb & Hne).
  destruct (quiet_generate_text (PStr s) max_length temperature p) as [Hsvc _].
  destruct (generate_text_total s max_length temperature p) as [t Ht].
  exists t, fb. repeat split; try assumption.
  - intros Hh. rewrite (generate_text_no_model s _ _ p Hh) in Ht. simpl in Ht.
    congruence.
  - intros h Hh.
    destruct (generator_call (generator h) (PStr s) _ (world p))
      as [[responses|e] w] eqn:Hcall; simpl.
    + split.
      * intros Hf.
        rewrite (generate_text_pipeline_empty s _ _ p h responses w Hh Hcall Hf) in Ht.
        congruence.
      * intros d rest g -> Hd.
        rewrite (generate_text_pipeline_text s _ _ p h d rest g w Hh Hcall Hd) in Ht.
        congruence.
    + rewrite (generate_text_pipeline_raises s _ _ p h e w Hh Hcall) in Ht.
      congruence.
Qed.

(** *** The command line *)

(** [main] returns 1 when [--install] was given and the installation
    returned [False]. *)
Lemma main_install_failure (argv : list string) (args : Args) (p : Proc) :
  parse_args argv = inl args ->
  arg_install args = true ->
  fst (install_dependencies (set_service init p)) = Ok false ->
  fst (main argv p) = Ok 1%Z.
Proof.
  intros Hp Hi Hf. unfold main, bind, put_service. rewrite Hp, Hi.
  destruct (install_dependencies (set_service init p)) as [[b|e] p']; simpl in *;
    [|discriminate].
  injection Hf as ->. reflexivity.
Qed.

(** [main] returns 0 when the installation returned [True] and no prompt
    was given. *)
Lemma main_install_success (argv : list string) (args : Args) (p : Proc) :
  parse_args argv = inl args ->
  arg_install args = true ->
  arg_prompt args = None ->
  fst (install_dependencies (set_service init p)) = Ok true ->
  fst (main argv p) = Ok 0%Z.
Proof.
  intros Hp Hi Hn Ht. unfold main, bind, put_service. rewrite Hp, Hi, Hn.
  destruct (install_dependencies (set_service init p)) as [[b|e] p']; simpl in *;
    [|discriminate].
  injection Ht as ->. reflexivity.
Qed.

(** C3, on the code: when [--install] is the first argument the script
    does not go through [main]; it calls [install_dependencies] and drops
    what it returns, so the process ends with code 0 also when the
    installation returned [False]. *)
Theorem run_script_install_first_exits_0 (argv : list string) (p : Proc) (b : bool) :
  argv !! 1%nat = Some "--install"%string ->
  fst (install_dependencies (set_service init p)) = Ok b ->
  fst (run_script argv p) = Exit 0.
Proof.
  intros Ha Hb. unfold run_script. rewrite bool_decide_eq_true_2 by exact Ha.
  unfold bind, put_service.
  destruct (install_dependencies (set_service init p)) as [[b'|e] p']; simpl in *;
    [reflexivity|discriminate].
Qed.

(** *** The handler of POST /generate *)

Lemma http_generate_no_prompt (d : gmap string pyval) (p : Proc) :
  truthy (default (PStr EmptyString) (d !! "prompt"%string)) = false ->
  http_generate_text (Ok (PDict d)) p =
  (Ok (mkResponse 400 {[ "error"%string := PStr "No prompt provided" ]}), p).
Proof.
  intros Hf. unfold http_generate_text, try_except, bind, lift. simpl.
  rewrite Hf. reflexivity.
Qed.

Lemma http_generate_str (d : gmap string pyval) (s : string) (p : Proc) :
  d !! "prompt"%string = Some (PStr s) ->
  s <> EmptyString ->
  exists t,
    fst (generate_text (PStr s) (default (PInt 500) (d !! "max_length"%string))
           (default (PFloat (7 # 10)) (d !! "temperature"%string)) p) = Ok t
    /\ http_generate_text (Ok (PDict d)) p =
       (Ok (mkResponse 200 (<[ "generated_text"%string := PStr t ]>
                              {[ "status"%string := PStr "success" ]})),
        snd (generate_text (PStr s) (default (PInt 500) (d !! "max_length"%string))
               (default (PFloat (7 # 10)) (d !! "temperature"%string)) p)).
Proof.
  intros Hd Hs.
  destruct (generate_text_total s (default (PInt 500) (d !! "max_length"%string))
              (default (PFloat (7 # 10)) (d !! "temperature"%string)) p) as [t Ht].
  exists t. split; [exact Ht|].
  unfold http_generate_text, try_except, bind, lift. simpl. rewrite Hd. simpl.
  destruct (String.eqb_spec s EmptyString) as [->|_]; [contradiction|]. simpl.
  destruct (generate_text _ _ _ p) as [[t'|e] p']; simpl in *; [|discriminate].
  injection Ht as ->. reflexivity.
Qed.

(** The catch-all of the handler: an exception of [request.get_json()],
    and a true prompt that cannot be sliced (a number, [true]), end in
    status 500 with the message of the exception. *)
Lemma http_generate_get_json_raises (e : Exn) (p : Proc) :
  http_generate_text (Raise e) p =
  (Ok (mkResponse 500 (<[ "error"%string := PStr (exn_msg e) ]>
                         {[ "status"%string := PStr "error" ]})), p).
Proof. reflexivity. Qed.

Lemma http_generate_number_prompt (d : gmap string pyval) (z : Z) (p : Proc) :
  d !! "prompt"%string = Some (PInt z) ->
  z <> 0%Z ->
  exists r, http_generate_text (Ok (PDict d)) p = (Ok r, p) /\ status r = 500%Z.
Proof.
  intros Hd Hz. unfold http_generate_text, try_except, bind, lift. simpl.
  rewrite Hd. simpl. destruct (Z.eqb_spec z 0) as [->|_]; [contradiction|].
  simpl. eexists. split; reflexivity.
Qed.

(** C9, as amended: for a body that is a JSON object, a prompt that is
    missing, the empty string or another false value gets status 400 and
    the object
    with "error" set to "No prompt provided", and the pipeline is not run;
    a prompt that is a non-empty [str] gets status 200 and the object with
    "generated_text" set to what [generate_text] returned and "status" set
    to "success". *)
Theorem http_generate_contract (d : gmap string pyval) (p : Proc) :
  ((d !! "prompt"%string = None
    \/ d !! "prompt"%string = Some (PStr EmptyString)
    \/ exists v, d !! "prompt"%string = Some v /\ truthy v = false) ->
     exists r, http_generate_text (Ok (PDict d)) p = (Ok r, p)
       /\ status r = 400%Z
       /\ json r !! "error"%string = Some (PStr "No prompt provided"))
  /\ (forall s, d !! "prompt"%string = Some (PStr s) -> s <> EmptyString ->
        exists r t,
          fst (http_generate_text (Ok (PDict d)) p) = Ok r
          /\ fst (generate_text (PStr s) (default (PInt 500) (d !! "max_length"%string))
                    (default (PFloat (7 # 10)) (d !! "temperature"%string)) p) = Ok t
          /\ status r = 200%Z
          /\ json r = <[ "generated_text"%string := PStr t ]>
                        {[ "status"%string := PStr "success" ]}).
Proof.
  split.
  - intros Hcase.
    assert (Hf : truthy (default (PStr EmptyString) (d !! "prompt"%string)) = false).
    { destruct Hcase as [-> | [-> | (v & -> & Hv)]]; [reflexivity|reflexivity|exact Hv]. }
    rewrite (http_generate_no_prompt d p Hf). eexists. split; [reflexivity|].
    split; [reflexivity|]. simpl. apply lookup_singleton_eq.
  - intros s Hd Hs. destruct (http_generate_str d s p Hd Hs) as (t & Ht & ->).
    eexists. exists t. simpl. repeat split. exact Ht.
Qed.

(** C10: a prompt that is a non-empty [str] of white space only passes
    the emptiness test; [generate_text] is run on it and the response has
    status 200, not 400, with "status" set to "success". *)
Theorem http_generate_whitespace_prompt (d : gmap string pyval) (s : string) (p : Proc) :
  d !! "prompt"%string = Some (PStr s) ->
  s <> EmptyString ->
  PyStr.blank s = true ->
  exists r t,
    http_generate_text (Ok (PDict d)) p =
      (Ok r, snd (generate_text (PStr s) (default (PInt 500) (d !! "max_length"%string))
                    (default (PFloat (7 # 10)) (d !! "temperature"%string)) p))
    /\ fst (generate_text (PStr s) (default (PInt 500) (d !! "max_length"%string))
              (default (PFloat (7 # 10)) (d !! "temperature"%string)) p) = Ok t
    /\ status r = 200%Z
    /\ status r <> 400%Z
    /\ json r !! "status"%string = Some (PStr "success")
    /\ json r !! "generated_text"%string = Some (PStr t).
Proof.
  intros Hd Hs _. destruct (http_generate_str d s p Hd Hs) as (t & Ht & ->).
  eexists. exists t.
  split; [reflexivity|]. split; [exact Ht|]. cbn [status json].
  split; [reflexivity|]. split; [discriminate|]. split.
  - rewrite lookup_insert_ne by discriminate. apply lookup_singleton_eq.
  - apply lookup_insert_eq.
Qed.

End Registry.

(** ** Runs of the service in the two environments *)
Module Runs.
Import Demo.

Lemma loaded_reachable : @reachable online loaded.
Proof.
  exact (@reachable_step online (OpLoad dialogpt) (@boot online 0%nat)
           (@reachable_init online (@boot online 0%nat) eq_refl)).
Defined.

Lemma fallback_business_case_witness :
  exists t, generate_fallback_response
              (PStr "Write the BUSINESS CASE, then the feasibility notes") = Ok t
    /\ t = business_case_template
    /\ PyStr.contains "Business Case Analysis" t = true
    /\ PyStr.contains "Recommendation:" t = true.
Proof.
  apply (fallback_business_case "Write the BUSINESS CASE, then the feasibility notes").
  vm_compute. reflexivity.
Defined.

Lemma fallback_feasibility_witness :
  exists t, generate_fallback_response (PStr "Give me a Feasibility study") = Ok t
    /\ t = feasibility_template
    /\ PyStr.contains "Feasibility Assessment" t = true
    /\ PyStr.contains "Overall Assessment:** PROCEED" t = true.
Proof.
  apply (fallback_feasibility "Give me a Feasibility study");
    vm_compute; reflexivity.
Defined.

Lemma fallback_generic_witness :
  exists t, generate_fallback_response (PStr "Summarise the project") = Ok t
    /\ t = generic_template
    /\ PyStr.contains "Recommend proceeding with detailed analysis" t = true.
Proof.
  apply (fallback_generic "Summarise the project"); vm_compute; reflexivity.
Defined.

(** The loaded model answers [ping]; the answer comes back trimmed. *)
Lemma generate_text_contract_witness :
  fst (@generate_text online (PStr "ping") (PInt 800) (PFloat (7 # 10)) loaded)
  = Ok "pong"%string.
Proof.
  destruct (@generate_text_contract online "ping" (PInt 800) (PFloat (7 # 10)) loaded)
    as (t & fb & Ht & _ & _ & _ & _ & Hh).
  rewrite Ht. f_equal.
  destruct (@current_handle online (@service online loaded)) as [h|] eqn:E;
    [|discriminate E].
  specialize (Hh h eq_refl). simpl in Hh.
  exact (proj2 Hh _ _ _ eq_refl (lookup_singleton_eq _ _)).
Defined.

(** C1, as stated, fails: the pipeline returns a text of white space
    only, and [generate_text] returns the empty text, which is not the
    canned answer. *)
Lemma generate_text_blank_not_fallback :
  (exists h w,
     @current_handle online (@service online loaded) = Some h
     /\ @generator_call online (@generator online h) (PStr "hello")
          (@sampling online (@generator online h) (PInt 800) (PFloat (7 # 10)))
          (@world online loaded)
        = (Ok (PList [PDict {[ "generated_text"%string := PStr "
" ]}]), w)
     /\ PyStr.blank "
" = true)
  /\ fst (@generate_text online (PStr "hello") (PInt 800) (PFloat (7 # 10)) loaded)
     = Ok EmptyString
  /\ fst (@generate_text online (PStr "hello") (PInt 800) (PFloat (7 # 10)) loaded)
     <> generate_fallback_response (PStr "hello").
Proof.
  split; [|split].
  - destruct (@current_handle online (@service online loaded)) as [h|] eqn:E;
      [|discriminate E].
    exists h, 1%nat. repeat split.
  - vm_compute. reflexivity.
  - vm_compute. discriminate.
Qed.

Lemma run_script_install_first_exits_0_witness :
  fst (@install_dependencies offline (set_service init (@boot offline tt))) = Ok false
  /\ fst (@run_script offline ["local_llm_service.py"; "--install"]%string
            (@boot offline tt)) = Exit 0.
Proof.
  split; [vm_compute; reflexivity|].
  apply (@run_script_install_first_exits_0 offline
           ["local_llm_service.py"; "--install"]%string (@boot offline tt) false);
    vm_compute; reflexivity.
Defined.

(** With [--install] in another place the script goes through [main],
    and the same failure ends the process with code 1. *)
Lemma run_script_install_later_exits_1 :
  fst (@run_script offline
         ["local_llm_service.py"; "--model"; "gpt2"; "--install"]%string
         (@boot offline tt)) = Exit 1.
Proof. vm_compute. reflexivity. Qed.

Lemma load_model_failure_leaves_registry_witness :
  fst (@load_model online "gpt2" (@boot online 0%nat)) = Ok false
  /\ models (service (snd (@load_model online "gpt2" (@boot online 0%nat)))) = ∅
  /\ current_model (service (snd (@load_model online "gpt2" (@boot online 0%nat)))) = None.
Proof.
  apply (@load_model_failure_leaves_registry online "gpt2" (@boot online 0%nat)).
  - reflexivity.
  - reflexivity.
  - apply (@tokenizer_fails online "gpt2" _
             (mkExn "OSError" "not a valid model identifier") 0%nat).
    reflexivity.
Defined.

Lemma load_model_cache_hit_witness :
  (fst (@load_model online dialogpt loaded) = Ok true
   /\ calls (snd (@load_model online dialogpt loaded)) = calls loaded)
  /\ setup_count
       (calls (snd (@load_model online dialogpt
                      (snd (@load_model online dialogpt (@boot online 0%nat))))))
     = 1%nat.
Proof.
  split.
  - destruct (proj1 (@load_model_cache_hit online dialogpt loaded loaded_reachable))
      as (Hok & Hcalls & _).
    + apply elem_of_dom. eexists. vm_compute. reflexivity.
    + split; assumption.
  - destruct (proj2 (@load_model_cache_hit online dialogpt (@boot online 0%nat)
                       (@reachable_init online (@boot online 0%nat) eq_refl)))
      as (_ & _ & Hcount).
    + apply not_elem_of_dom. vm_compute. reflexivity.
    + vm_compute. reflexivity.
    + exact Hcount.
Defined.

Lemma current_model_is_loaded_witness :
  dialogpt ∈ dom (models (@service online loaded)).
Proof.
  apply (@current_model_is_loaded online loaded dialogpt loaded_reachable).
  vm_compute. reflexivity.
Defined.

Lemma http_generate_contract_witness :
  (exists r, @http_generate_text online (Ok (PDict ∅)) (@boot online 0%nat)
             = (Ok r, @boot online 0%nat)
     /\ status r = 400%Z
     /\ json r !! "error"%string = Some (PStr "No prompt provided"))
  /\ (exists r t,
        fst (@http_generate_text online
               (Ok (PDict {[ "prompt"%string := PStr "ping" ]})) loaded) = Ok r
        /\ fst (@generate_text online (PStr "ping") (PInt 500) (PFloat (7 # 10)) loaded)
           = Ok t
        /\ status r = 200%Z
        /\ json r = <[ "generated_text"%string := PStr t ]>
                      {[ "status"%string := PStr "success" ]}).
Proof.
  split.
  - apply (proj1 (@http_generate_contract online ∅ (@boot online 0%nat))).
    left. reflexivity.
  - apply (proj2 (@http_generate_contract online
                    {[ "prompt"%string := PStr "ping" ]} loaded) "ping"%string).
    + vm_compute. reflexivity.
    + discriminate.
Defined.

(** C9, as stated, fails: the prompt 5 is there and is not empty, and the
    answer is 500, not 200. *)
Lemma http_generate_number_prompt_not_200 :
  truthy (PInt 5) = true
  /\ exists r,
       fst (@http_generate_text online
              (Ok (PDict {[ "prompt"%string := PInt 5 ]})) (@boot online 0%nat)) = Ok r
       /\ status r = 500%Z
       /\ status r <> 200%Z.
Proof.
  split; [reflexivity|]. eexists. split; [vm_compute; reflexivity|].
  split; [reflexivity|discriminate].
Qed.

Lemma http_generate_whitespace_prompt_witness :
  exists r, fst (@http_generate_text online
                   (Ok (PDict {[ "prompt"%string := PStr " " ]})) (@boot online 0%nat))
            = Ok r
    /\ status r = 200%Z
    /\ json r !! "status"%string = Some (PStr "success").
Proof.
  destruct (@http_generate_whitespace_prompt online
              {[ "prompt"%string := PStr " " ]} " "%string (@boot online 0%nat))
    as (r & t & Hrun & _ & Hst & _ & Hjs & _).
  - vm_compute. reflexivity.
  - discriminate.
  - vm_compute. reflexivity.
  - exists r. rewrite Hrun. repeat split; assumption.
Defined.

End Runs.

(** * Further properties of the program *)

(** ** Keywords and trimming *)
Module TextFacts.
Import PyStr PyStrFacts.
#[local] Arguments String.append !_ _ / : simpl nomatch.

Lemma lower_app (a b : string) : lower (a +:+ b) = lower a +:+ lower b.
Proof. induction a as [|c a IH]; simpl; [reflexivity|]. rewrite IH. reflexivity. Qed.

Lemma contains_lower_keyword (a k b kw : string) :
  lower k = kw -> contains kw (lower (a +:+ k +:+ b)) = true.
Proof.
  intros <-. apply contains_spec. exists (lower a), (lower b).
  rewrite !lower_app. reflexivity.
Qed.

Lemma rstrip_last (s : string) c t :
  rstrip s = String c t -> is_space (last_char c t) = false.
Proof.
  revert c t. induction s as [|d s IH]; intros c t; simpl; [discriminate|].
  destruct (rstrip s) as [|e u] eqn:R.
  - destruct (is_space d) eqn:Hd; [discriminate|]. intros [= <- <-]. exact Hd.
  - intros [= <- <-]. simpl. apply (IH e u eq_refl).
Qed.

Lemma rstrip_head (c : ascii) (t : string) :
  is_space c = false -> exists u, rstrip (String c t) = String c u.
Proof.
  intros Hc. simpl. destruct (rstrip t) as [|e u]; rewrite ?Hc; eauto.
Qed.

(** What [strip] returns neither begins nor ends with white space. *)
Lemma strip_trimmed (s : string) : str_trimmed (strip s) = true.
Proof.
  unfold strip. destruct (lstrip s) as [|c t] eqn:L; [reflexivity|].
  pose proof (lstrip_head s c t L) as Hc.
  destruct (rstrip_head c t Hc) as [u Hu].
  pose proof (rstrip_last (String c t) c u Hu) as Hl.
  rewrite Hu. unfold str_trimmed. rewrite Hc, Hl. reflexivity.
Qed.

End TextFacts.

(** X1: the business-case keyword is found in any capitalisation and
    anywhere in the prompt, whatever else the prompt holds. *)
Theorem fallback_business_case_anywhere (a k b : string) :
  PyStr.lower k = "business case"%string ->
  generate_fallback_response (PStr (a +:+ k +:+ b)) = Ok business_case_template.
Proof.
  intros Hk. rewrite fallback_of_str.
  rewrite (TextFacts.contains_lower_keyword a k b _ Hk). reflexivity.
Qed.

(** X2: the feasibility keyword is found in any capitalisation and anywhere
    in the prompt; it decides when the prompt has no business-case keyword. *)
Theorem fallback_feasibility_anywhere (a k b : string) :
  PyStr.lower k = "feasibility"%string ->
  PyStr.contains "business case" (PyStr.lower (a +:+ k +:+ b)) = false ->
  generate_fallback_response (PStr (a +:+ k +:+ b)) = Ok feasibility_template.
Proof.
  intros Hk Hb. rewrite fallback_of_str, Hb.
  rewrite (TextFacts.contains_lower_keyword a k b _ Hk). reflexivity.
Qed.

(** A prompt that is not a [str] makes the fallback responder raise
    [AttributeError]; for a [str] it returns one of the three templates. *)
Lemma fallback_domain (prompt : pyval) :
  match prompt with
  | PStr s =>
      generate_fallback_response prompt = Ok business_case_template
      \/ generate_fallback_response prompt = Ok feasibility_template
      \/ generate_fallback_response prompt = Ok generic_template
  | _ => exists e, generate_fallback_response prompt = Raise e
                   /\ exn_class e = "AttributeError"%string
  end.
Proof.
  destruct prompt; try (eexists; split; reflexivity).
  rewrite fallback_of_str.
  destruct (PyStr.contains _ _); [auto|]. destruct (PyStr.contains _ _); auto.
Qed.

(** ** Installation *)
Section Installation.
Context `{Collaborators}.
Local Open Scope py_scope.

Lemma pip_calls_app (a b : list Call) : pip_calls (a ++ b) = pip_calls a ++ pip_calls b.
Proof.
  induction a as [|c a IH]; simpl; [reflexivity|].
  destruct c; simpl; rewrite IH; reflexivity.
Qed.

Lemma py_import_pip m p :
  pip_calls (calls (snd (py_import m p))) = pip_calls (calls p).
Proof.
  unfold py_import. case_bool_decide; [reflexivity|].
  destruct (exec_module m (world p)) as [[[]|e] w]; simpl;
    rewrite pip_calls_app; simpl; apply app_nil_r.
Qed.

(** The loop calls [pip] on the packages in order and stops at the first
    call that raises. *)
Lemma install_packages_prefix (pkgs : list string) (p : Proc) :
  exists done,
    done `prefix_of` pkgs
    /\ calls (snd (install_packages pkgs p)) = calls p ++ map CallPip done
    /\ service (snd (install_packages pkgs p)) = service p
    /\ sys_modules (snd (install_packages pkgs p)) = sys_modules p
    /\ stdout (snd (install_packages pkgs p)) = stdout p
    /\ (fst (install_packages pkgs p) = Ok true -> done = pkgs)
    /\ (fst (install_packages pkgs p) <> Ok true -> done <> []).
Proof.
  revert p. induction pkgs as [|pkg rest IH]; intros p.
  - exists []. simpl. rewrite app_nil_r.
    split; [reflexivity|]. do 5 (split; [reflexivity|]).
    intros Hn. exfalso. apply Hn. reflexivity.
  - simpl. unfold extern.
    destruct (pip_install pkg (world p)) as [[[]|e] w].
    + destruct (IH (mkProc (service p) (sys_modules p) w (calls p ++ [CallPip pkg]) (stdout p)))
        as (done & Hpre & Hc & Hs & Hm & Ho & Ht & Hf).
      exists (pkg :: done). simpl in *.
      split; [apply prefix_cons; exact Hpre|].
      split; [rewrite Hc, <- app_assoc; reflexivity|].
      do 3 (split; [assumption|]).
      split; [intros Hok; rewrite (Ht Hok); reflexivity|discriminate].
    + exists [pkg]. destruct (is_CalledProcessError e); simpl;
        (split; [apply prefix_cons, prefix_nil|]);
        do 4 (split; [reflexivity|]); (split; discriminate).
Qed.

Lemma pip_calls_map (l : list string) : pip_calls (map CallPip l) = l.
Proof. induction l as [|x l IH]; simpl; [reflexivity|]. rewrite IH. reflexivity. Qed.

Lemma setup_count_pip (l : list string) : setup_count (map CallPip l) = 0.
Proof. induction l as [|x l IH]; simpl; [reflexivity|exact IH]. Qed.

Lemma py_import_stdout m p : stdout (snd (py_import m p)) = stdout p.
Proof.
  unfold py_import. case_bool_decide; [reflexivity|].
  destruct (exec_module m (world p)) as [[[]|e] w]; reflexivity.
Qed.

(** The two imports at the head of [install_dependencies]. *)
Lemma imports_frame (p : Proc) :
  let out := (py_import "transformers" ;;; py_import "torch" ;;; ret true) p in
  service (snd out) = service p
  /\ pip_calls (calls (snd out)) = pip_calls (calls p)
  /\ setup_count (calls (snd out)) = setup_count (calls p)
  /\ stdout (snd out) = stdout p.
Proof.
  unfold bind, ret.
  destruct (quiet_import "transformers" p) as [S1 _].
  pose proof (py_import_pip "transformers" p) as P1.
  pose proof (py_import_count "transformers" p) as C1.
  pose proof (py_import_stdout "transformers" p) as O1.
  destruct (py_import "transformers" p) as [[u1|e1] p1]; simpl in *; [|auto].
  destruct (quiet_import "torch" p1) as [S2 _].
  pose proof (py_import_pip "torch" p1) as P2.
  pose proof (py_import_count "torch" p1) as C2.
  pose proof (py_import_stdout "torch" p1) as O2.
  destruct (py_import "torch" p1) as [[u2|e2] p2]; simpl in *;
    (repeat split; congruence).
Qed.

(** What [install_dependencies] does to the process. *)
Lemma install_dependencies_frame (p : Proc) :
  exists done,
    done `prefix_of` packages
    /\ pip_calls (calls (snd (install_dependencies p))) = pip_calls (calls p) ++ done
    /\ service (snd (install_dependencies p)) = service p
    /\ setup_count (calls (snd (install_dependencies p))) = setup_count (calls p)
    /\ stdout (snd (install_dependencies p)) = stdout p
    /\ (fst (install_dependencies p) = Ok true -> done = [] \/ done = packages)
    /\ (fst (install_dependencies p) = Ok false -> done <> []).
Proof.
  unfold install_dependencies, try_catch.
  destruct (imports_frame p) as (S1 & P1 & C1 & O1).
  destruct ((py_import "transformers" ;;; py_import "torch" ;;; ret true) p)
    as [[b|e] q] eqn:E; cbn [fst snd] in *.
  - exists []. rewrite app_nil_r.
    split; [apply prefix_nil|]. do 4 (split; [assumption|]).
    split; [auto|].
    assert (b = true) as ->; [|discriminate].
    revert E. unfold bind, ret.
    destruct (py_import "transformers" p) as [[u1|e1] p1]; [|discriminate].
    destruct (py_import "torch" p1) as [[u2|e2] p2]; [|discriminate].
    intros [= <- _]. reflexivity.
  - destruct (is_ImportError e).
    + destruct (install_packages_prefix packages q)
        as (done & Hpre & Hc & Hs & Hm & Ho & Ht & Hf).
      exists done. split; [exact Hpre|].
      split; [rewrite Hc, pip_calls_app, pip_calls_map; congruence|].
      split; [congruence|].
      split; [rewrite Hc, setup_count_app, setup_count_pip; lia|].
      split; [congruence|].
      split; [intros Hok; right; exact (Ht Hok)|].
      intros Hfalse. apply Hf. rewrite Hfalse. discriminate.
    + exists []. rewrite app_nil_r.
      split; [apply prefix_nil|]. do 4 (split; [assumption|]).
      split; [auto|discriminate].
Qed.

(** When every call of [pip] returns, the loop has called it on every
    package and returns [True]. *)
Lemma install_packages_all (pkgs : list string) (p : Proc) (w : World) :
  after_pips pkgs (world p) = Some w ->
  install_packages pkgs p =
  (Ok true, mkProc (service p) (sys_modules p) w (calls p ++ map CallPip pkgs) (stdout p)).
Proof.
  revert p. induction pkgs as [|pkg rest IH]; intros p; simpl.
  - intros [= <-]. rewrite app_nil_r. destruct p; reflexivity.
  - unfold extern. destruct (pip_install pkg (world p)) as [[[]|e] w1]; [|discriminate].
    intros Hrest. rewrite (IH (mkProc (service p) (sys_modules p) w1
                                 (calls p ++ [CallPip pkg]) (stdout p)) Hrest).
    cbn [service sys_modules calls stdout]. rewrite <- app_assoc. reflexivity.
Qed.

(** The first call of [pip] that raises ends the loop. *)
Lemma install_packages_stops (pre : list string) (pkg : string) (post : list string)
    (p : Proc) (w : World) (e : Exn) (w' : World) :
  after_pips pre (world p) = Some w ->
  pip_install pkg w = (Raise e, w') ->
  install_packages (pre ++ pkg :: post) p =
  (if is_CalledProcessError e then Ok false else Raise e,
   mkProc (service p) (sys_modules p) w' (calls p ++ map CallPip (pre ++ [pkg])) (stdout p)).
Proof.
  revert p. induction pre as [|x pre IH]; intros p; simpl.
  - intros [= <-] Hpip. unfold extern. rewrite Hpip.
    destruct (is_CalledProcessError e); reflexivity.
  - unfold extern. destruct (pip_install x (world p)) as [[[]|e1] w1]; [|discriminate].
    intros Hpre Hpip.
    rewrite (IH (mkProc (service p) (sys_modules p) w1
                   (calls p ++ [CallPip x]) (stdout p)) Hpre Hpip).
    cbn [service sys_modules calls stdout]. rewrite <- app_assoc. reflexivity.
Qed.

(** X3: when an import has raised [ImportError], [install_dependencies]
    calls [pip] on the packages of lines 33-38 in order, each call in the
    world the one before left.  If every call returns it returns [True]
    after the four calls.  The first call that raises ends the loop: no
    later package is tried, and the result is [False] for a
    [CalledProcessError], while any other exception goes on to the
    caller. *)
Theorem install_dependencies_pip_calls (p : Proc) (e0 : Exn) :
  fst (import_libraries p) = Raise e0 ->
  is_ImportError e0 = true ->
  let q := snd (import_libraries p) in
  (forall w,
     after_pips packages (world q) = Some w ->
     install_dependencies p =
     (Ok true, mkProc (service q) (sys_modules q) w
                      (calls q ++ map CallPip packages) (stdout q)))
  /\ (forall pre pkg post w e w',
        packages = pre ++ pkg :: post ->
        after_pips pre (world q) = Some w ->
        pip_install pkg w = (Raise e, w') ->
        install_dependencies p =
        (if is_CalledProcessError e then Ok false else Raise e,
         mkProc (service q) (sys_modules q) w'
                (calls q ++ map CallPip (pre ++ [pkg])) (stdout q))).
Proof.
  intros Himp Hie q.
  assert (Hrun : install_dependencies p = install_packages packages q).
  { unfold q. revert Himp. unfold install_dependencies, try_catch, import_libraries, bind.
    destruct (py_import "transformers" p) as [[u1|e1] p1]; cbn [fst snd].
    - destruct (py_import "torch" p1) as [[u2|e2] p2]; cbn [fst snd]; [discriminate|].
      intros [= ->]. rewrite Hie. reflexivity.
    - intros [= ->]. rewrite Hie. reflexivity. }
  split.
  - intros w Hall. rewrite Hrun. exact (install_packages_all packages q w Hall).
  - intros pre pkg post w e w' Hsplit Hpre Hpip. rewrite Hrun, Hsplit.
    exact (install_packages_stops pre pkg post q w e w' Hpre Hpip).
Qed.

(** X4: with both modules already imported, [install_dependencies] returns
    [True] and does nothing else. *)
Theorem install_dependencies_when_imported (p : Proc) :
  "transformers"%string ∈ sys_modules p ->
  "torch"%string ∈ sys_modules p ->
  install_dependencies p = (Ok true, p).
Proof.
  intros Ht Hc. unfold install_dependencies, try_catch, bind.
  rewrite (py_import_cached _ _ Ht), (py_import_cached _ _ Hc). reflexivity.
Qed.

End Installation.

(** ** The registry over time *)
Section RegistryOverTime.
Context `{Collaborators}.
Local Open Scope py_scope.

Lemma load_model_keeps name p :
  models (service p) ⊆ models (service (snd (load_model name p))).
Proof.
  rewrite load_model_unfold. cbn [snd].
  destruct (load_model_try_spec name p) as [_ Hs].
  destruct (fst (load_model_try name p)) as [b|e]; [|rewrite Hs; reflexivity].
  destruct Hs as (_ & _ & _ & _ & Hm).
  destruct (models (service p) !! name) as [h|] eqn:L.
  - destruct Hm as [-> _]. reflexivity.
  - destruct Hm as [[h ->] _]. apply insert_subseteq. exact L.
Qed.

Lemma run_op_keeps o p : models (service p) ⊆ models (service (run_op o p)).
Proof.
  destruct o as [name|a b c]; simpl; [apply load_model_keeps|].
  destruct (quiet_generate_text a b c p) as [-> _]. reflexivity.
Qed.

(** X5: nothing is ever evicted or replaced: a handle stored under a name
    is still stored under it, unchanged, after any sequence of loads and
    generations. *)
Theorem registry_never_evicts (ops : list Op) (p : Proc) (n : string) (h : Handle) :
  models (service p) !! n = Some h ->
  models (service (run_ops ops p)) !! n = Some h.
Proof.
  revert p. induction ops as [|o ops IH]; intros p L; [exact L|].
  unfold run_ops. simpl. apply IH.
  exact (lookup_weaken _ _ _ _ L (run_op_keeps o p)).
Qed.

Lemma load_model_setup_coherent name p h :
  fst (load_model_setup name p) = Ok h -> handle_coherent h.
Proof.
  unfold load_model_setup, bind, extern, torch_cuda_is_available, ret. simpl.
  destruct (tokenizer_from_pretrained name "left" (world p)) as [[t|e] w1]; simpl;
    [|discriminate].
  destruct (model_from_pretrained _ _ w1) as [[m|e] w2]; simpl; [|discriminate].
  destruct (pipeline_init _ w2) as [[[]|e] w3]; simpl; [|discriminate].
  intros [= <-]. unfold handle_coherent. simpl.
  repeat split. destruct (pad_token t) eqn:Hp; simpl; [rewrite Hp; discriminate|auto].
Qed.

Lemma load_model_new_handle name p :
  models (service p) !! name = None ->
  fst (load_model name p) = Ok true ->
  exists h, handle_coherent h
    /\ models (service (snd (load_model name p))) = <[name := h]> (models (service p)).
Proof.
  intros L. unfold load_model, try_except, load_model_try, bind, get_service, put_service, ret.
  destruct (quiet_import "transformers" p) as [S1 _].
  destruct (py_import "transformers" p) as [[u1|e1] p1]; simpl in *; [|discriminate].
  destruct (quiet_import "torch" p1) as [S2 _].
  destruct (py_import "torch" p1) as [[u2|e2] p2]; simpl in *; [|discriminate].
  rewrite S2, S1, L.
  destruct (quiet_setup name p2) as [S3 _].
  pose proof (load_model_setup_coherent name p2) as Hco.
  destruct (load_model_setup name p2) as [[h|e] p3]; simpl in *; [|discriminate].
  intros _. exists h. split; [apply Hco; reflexivity|].
  rewrite S3, S2, S1. reflexivity.
Qed.

Lemma load_model_old_handles name p h0 :
  models (service p) !! name = Some h0 ->
  models (service (snd (load_model name p))) = models (service p).
Proof.
  intros L. rewrite load_model_unfold. cbn [snd].
  destruct (load_model_try_spec name p) as [_ Hs].
  destruct (fst (load_model_try name p)) as [b|e]; [|rewrite Hs; reflexivity].
  destruct Hs as (_ & _ & _ & _ & Hm). rewrite L in Hm. exact (proj1 Hm).
Qed.

(** X6: every handle in the registry of a reachable process is as lines
    64-94 build it: its pipeline holds the tokenizer and the model stored
    beside it and pads with the end-of-sequence id, and its tokenizer has a
    pad token whenever it has an end-of-sequence token. *)
Theorem handles_coherent (p : Proc) (n : string) (h : Handle) :
  reachable p ->
  models (service p) !! n = Some h ->
  handle_coherent h.
Proof.
  intros Hreach. revert n h.
  induction Hreach as [p E|o p _ IH]; intros n h.
  - rewrite E. simpl. rewrite lookup_empty. discriminate.
  - destruct o as [name|a b c]; simpl.
    + destruct (models (service p) !! name) as [h0|] eqn:L.
      * rewrite (load_model_old_handles name p h0 L). apply IH.
      * destruct (load_model_total name p) as [Hok|Hno].
        -- destruct (load_model_new_handle name p L Hok) as (h1 & Hco & ->).
           destruct (decide (name = n)) as [->|Hne].
           ++ rewrite lookup_insert_eq. intros [= <-]. exact Hco.
           ++ rewrite lookup_insert_ne by exact Hne. apply IH.
        -- rewrite (load_model_false_unchanged name p Hno). apply IH.
    + destruct (quiet_generate_text a b c p) as [-> _]. apply IH.
Qed.

(** X7: a load that returns [True], from any process, has made the name a
    key of the mapping and the current model, so that the next generation
    uses its handle. *)
Theorem load_model_selects (name : string) (p : Proc) :
  fst (load_model name p) = Ok true ->
  exists h,
    models (service (snd (load_model name p))) !! name = Some h
    /\ current_model (service (snd (load_model name p))) = Some name
    /\ current_handle (service (snd (load_model name p))) = Some h.
Proof.
  rewrite load_model_unfold. cbn [fst snd].
  destruct (load_model_try_spec name p) as [_ Hs].
  destruct (fst (load_model_try name p)) as [b|e]; [|discriminate].
  intros _. destruct Hs as (_ & _ & _ & Hcur & Hm).
  assert (Hk : exists h, models (service (snd (load_model_try name p))) !! name = Some h).
  { destruct (models (service p) !! name) as [h|] eqn:L.
    - destruct Hm as [-> _]. eauto.
    - destruct Hm as [[h ->] _]. exists h. apply lookup_insert_eq. }
  destruct Hk as [h Hk]. exists h. unfold current_handle. rewrite Hcur. auto.
Qed.

(** The process a generation leaves. *)
Lemma generate_text_leaves (s : string) (max_length temperature : pyval) (p : Proc) :
  snd (generate_text (PStr s) max_length temperature p) =
  match current_handle (service p) with
  | None => p
  | Some h =>
      mkProc (service p) (sys_modules p)
        (snd (generator_call (generator h) (PStr s)
                (sampling (generator h) max_length temperature) (world p)))
        (calls p ++ [CallGenerator (PStr s)]) (stdout p)
  end.
Proof.
  destruct (current_handle (service p)) as [h|] eqn:Hh.
  - unfold generate_text, try_except, generate_text_try, bind, get_service, lift, extern, ret.
    unfold current_handle in Hh.
    destruct (current_model (service p)) as [cur|]; [|discriminate].
    rewrite Hh, fallback_of_str. cbn [py_slice_to].
    destruct (generator_call _ _ _ (world p)) as [[responses|e] w]; cbn [fst snd];
      [|reflexivity].
    destruct (truthy responses); [|reflexivity].
    destruct (py_len responses) as [n|e]; [|reflexivity].
    destruct (0 <? n)%Z; [|reflexivity].
    destruct (py_getitem responses (PInt 0)) as [first|e]; [|reflexivity].
    destruct (py_getitem first (PStr "generated_text")) as [text|e]; [|reflexivity].
    destruct (py_strip text) as [t|e]; reflexivity.
  - rewrite (generate_text_no_model s _ _ p Hh). reflexivity.
Qed.

(** X8: for a [str] prompt, a generation without a usable model leaves the
    process exactly as it was; with one it calls the pipeline exactly once,
    with [max_new_tokens] the caller's length, the caller's temperature,
    [do_sample=True], [top_p=0.9], [repetition_penalty=1.1] and the
    end-of-sequence id of the pipeline's tokenizer as [pad_token_id],
    whatever the pipeline returns or raises, and does nothing else to the
    process. *)
Theorem generate_text_process (s : string) (max_length temperature : pyval) (p : Proc) :
  snd (generate_text (PStr s) max_length temperature p) =
  match current_handle (service p) with
  | None => p
  | Some h =>
      mkProc (service p) (sys_modules p)
        (snd (generator_call (generator h) (PStr s)
                {| max_new_tokens := max_length;
                   temperature := temperature;
                   do_sample := true;
                   top_p := 9 # 10;
                   repetition_penalty := 11 # 10;
                   pad_token_id := eos_token_id (g_tokenizer (generator h)) |}
                (world p)))
        (calls p ++ [CallGenerator (PStr s)]) (stdout p)
  end.
Proof. exact (generate_text_leaves s max_length temperature p). Qed.

End RegistryOverTime.

(** ** The server *)
Section Server.
Context `{Collaborators}.
Local Open Scope py_scope.

Lemma quiet_http_generate_text body : quiet (http_generate_text body).
Proof.
  unfold http_generate_text. apply quiet_try_except; [|intros; apply quiet_ret].
  apply quiet_bind; [apply quiet_lift|]. intros data.
  apply quiet_bind; [apply quiet_lift|]. intros prompt.
  apply quiet_bind; [apply quiet_lift|]. intros max_length.
  apply quiet_bind; [apply quiet_lift|]. intros temperature.
  destruct (negb (truthy prompt)); [apply quiet_ret|].
  apply quiet_bind; [apply quiet_lift|]. intros _.
  apply quiet_bind; [apply quiet_generate_text|]. intros result. apply quiet_ret.
Qed.

(** X9: the handler of POST /generate never raises, whatever the body
    and the state of the service: it answers 200 with "status" set to
    "success", 400, or 500 with "status" set to "error"; and it leaves the
    service object as it was. *)
Theorem http_generate_always_answers (body : res pyval) (p : Proc) :
  exists r,
    fst (http_generate_text body p) = Ok r
    /\ (status r = 200%Z /\ json r !! "status"%string = Some (PStr "success")
        \/ status r = 400%Z /\ json r !! "error"%string = Some (PStr "No prompt provided")
        \/ status r = 500%Z /\ json r !! "status"%string = Some (PStr "error"))
    /\ service (snd (http_generate_text body p)) = service p.
Proof.
  destruct (quiet_http_generate_text body p) as [Hs _].
  assert (H500 : forall e : Exn,
            json (mkResponse 500 (<[ "error"%string := PStr (exn_msg e) ]>
                                    {[ "status"%string := PStr "error" ]}))
              !! "status"%string = Some (PStr "error")).
  { intros e. cbn [json]. rewrite lookup_insert_ne by discriminate.
    apply lookup_singleton_eq. }
  revert Hs. unfold http_generate_text, try_except, bind, lift, ret.
  destruct body as [data|e]; [|eexists; split; [reflexivity|]; split; [|assumption];
                                right; right; split; [reflexivity|apply H500]].
  destruct (py_get data "prompt" (PStr EmptyString)) as [prompt|e];
    [|eexists; split; [reflexivity|]; split; [|assumption];
      right; right; split; [reflexivity|apply H500]].
  destruct (py_get data "max_length" (PInt 500)) as [max_length|e];
    [|eexists; split; [reflexivity|]; split; [|assumption];
      right; right; split; [reflexivity|apply H500]].
  destruct (py_get data "temperature" (PFloat (7 # 10))) as [temperature|e];
    [|eexists; split; [reflexivity|]; split; [|assumption];
      right; right; split; [reflexivity|apply H500]].
  destruct (negb (truthy prompt)).
  - eexists. split; [reflexivity|]. split; [|assumption].
    right; left. split; [reflexivity|]. cbn [json]. apply lookup_singleton_eq.
  - destruct (py_slice_to 100 prompt) as [sl|e];
      [|eexists; split; [reflexivity|]; split; [|assumption];
        right; right; split; [reflexivity|apply H500]].
    destruct (generate_text prompt max_length temperature p) as [[t|e] p'];
      [|eexists; split; [reflexivity|]; split; [|assumption];
        right; right; split; [reflexivity|apply H500]].
    eexists. split; [reflexivity|]. split; [|assumption].
    left. split; [reflexivity|]. cbn [json].
    rewrite lookup_insert_ne by discriminate. apply lookup_singleton_eq.
Qed.

(** X10: a body that is valid JSON but not an object (a list, a string, a
    number, [null]) is answered 500, not 400, and nothing else happens. *)
Theorem http_generate_body_not_object (v : pyval) (p : Proc) :
  (forall d, v <> PDict d) ->
  exists r, http_generate_text (Ok v) p = (Ok r, p)
    /\ status r = 500%Z
    /\ json r !! "status"%string = Some (PStr "error").
Proof.
  intros Hv. unfold http_generate_text, try_except, bind, lift, ret.
  destruct v; try (eexists; split; [reflexivity|]; split; [reflexivity|];
                   cbn [json]; rewrite lookup_insert_ne by discriminate;
                   apply lookup_singleton_eq).
  exfalso. exact (Hv d eq_refl).
Qed.

Lemma generate_text_no_model_any a b c p :
  current_handle (service p) = None ->
  generate_text a b c p = (generate_fallback_response a, p).
Proof.
  intros Hh. unfold generate_text, try_except, generate_text_try, bind, get_service, lift.
  unfold current_handle in Hh.
  destruct (current_model (service p)) as [cur|]; [rewrite Hh|];
    destruct (generate_fallback_response a); reflexivity.
Qed.

(** X11: while no model is usable, a prompt that is true but not a [str]
    (a number, [true], a non-empty list or object) is answered 500. *)
Theorem http_generate_prompt_not_str (d : gmap string pyval) (v : pyval) (p : Proc) :
  current_handle (service p) = None ->
  d !! "prompt"%string = Some v ->
  truthy v = true ->
  (forall s, v <> PStr s) ->
  exists r, http_generate_text (Ok (PDict d)) p = (Ok r, p)
    /\ status r = 500%Z
    /\ json r !! "status"%string = Some (PStr "error").
Proof.
  intros Hh Hd Ht Hv. unfold http_generate_text, try_except, bind, lift, ret.
  cbn [py_get]. rewrite Hd. cbn [default from_option id]. rewrite Ht. cbn [negb].
  destruct v; try discriminate Ht;
    try (eexists; split; [reflexivity|]; split; [reflexivity|];
         cbn [json]; rewrite lookup_insert_ne by discriminate;
         apply lookup_singleton_eq).
  - exfalso. exact (Hv s eq_refl).
  - cbn [py_slice_to]. rewrite (generate_text_no_model_any _ _ _ p Hh).
    eexists; split; [reflexivity|]; split; [reflexivity|].
    cbn [json]. rewrite lookup_insert_ne by discriminate. apply lookup_singleton_eq.
Qed.

Lemma http_generate_no_model_unchanged body p :
  current_handle (service p) = None ->
  snd (http_generate_text body p) = p.
Proof.
  intros Hh. unfold http_generate_text, try_except, bind, lift, ret.
  destruct body as [data|e]; [|reflexivity].
  destruct (py_get data "prompt" (PStr EmptyString)) as [prompt|e]; [|reflexivity].
  destruct (py_get data "max_length" (PInt 500)) as [max_length|e]; [|reflexivity].
  destruct (py_get data "temperature" (PFloat (7 # 10))) as [temperature|e]; [|reflexivity].
  destruct (negb (truthy prompt)); [reflexivity|].
  destruct (py_slice_to 100 prompt) as [sl|e]; [|reflexivity].
  rewrite (generate_text_no_model_any _ _ _ p Hh).
  destruct (generate_fallback_response prompt); reflexivity.
Qed.

Lemma serve_no_model bodies p :
  current_handle (service p) = None -> serve bodies p = p.
Proof.
  intros Hh. induction bodies as [|body bodies IH]; [reflexivity|].
  unfold serve in *. simpl. rewrite (http_generate_no_model_unchanged body p Hh).
  exact IH.
Qed.

(** X12: the server never loads a model.  Once [start_server] has set up
    the service, and after any requests whatever, a request with a
    non-empty [str] prompt is answered 200 with the canned text for that
    prompt, no call of a pipeline is made, and the process stays as
    [start_server] left it. *)
Theorem server_answers_from_templates
    (p : Proc) (bodies : list (res pyval)) (d : gmap string pyval) (s : string) :
  fst (start_server p) = Ok tt ->
  d !! "prompt"%string = Some (PStr s) ->
  s <> EmptyString ->
  let p0 := snd (start_server p) in
  serve bodies p0 = p0
  /\ exists fb,
       generate_fallback_response (PStr s) = Ok fb
       /\ http_generate_text (Ok (PDict d)) (serve bodies p0) =
          (Ok (mkResponse 200 (<[ "generated_text"%string := PStr fb ]>
                                 {[ "status"%string := PStr "success" ]})),
           p0).
Proof.
  intros Hstart Hd Hs p0.
  assert (Hh : current_handle (service p0) = None).
  { unfold p0. revert Hstart. unfold start_server, bind, put_service.
    destruct (py_import "flask" p) as [[u|e] p1]; [|discriminate].
    intros _. reflexivity. }
  rewrite (serve_no_model bodies p0 Hh). split; [reflexivity|].
  destruct (http_generate_str d s p0 Hd Hs) as (t & Ht & Hrun).
  rewrite (generate_text_no_model s _ _ p0 Hh) in Ht, Hrun. cbn [fst snd] in *.
  exists t. split; [exact Ht|exact Hrun].
Qed.

End Server.

(** ** The command line *)
Section CommandLine.
Context `{Collaborators}.
Local Open Scope py_scope.

Lemma silent_ret {A} (a : A) : silent (ret a).
Proof. intros p. reflexivity. Qed.

Lemma silent_lift {A} (r : res A) : silent (lift r).
Proof. intros p. reflexivity. Qed.

Lemma silent_get_service : silent get_service.
Proof. intros p. reflexivity. Qed.

Lemma silent_put_service s : silent (put_service s).
Proof. intros p. reflexivity. Qed.

Lemma silent_extern {A} c (f : World -> res A * World) : silent (extern c f).
Proof. intros p. unfold extern. destruct (f (world p)). reflexivity. Qed.

Lemma silent_torch_cuda : silent torch_cuda_is_available.
Proof. intros p. reflexivity. Qed.

Lemma silent_import m : silent (py_import m).
Proof. intros p. apply py_import_stdout. Qed.

Lemma silent_bind {A B} (c : M A) (k : A -> M B) :
  silent c -> (forall a, silent (k a)) -> silent (bind c k).
Proof.
  intros Hc Hk p. unfold bind. specialize (Hc p).
  destruct (c p) as [[a|e] p1]; simpl in *; [|exact Hc].
  rewrite (Hk a p1). exact Hc.
Qed.

Lemma silent_try_except {A} (c : M A) (h : Exn -> M A) :
  silent c -> (forall e, silent (h e)) -> silent (try_except c h).
Proof.
  intros Hc Hh p. unfold try_except. specialize (Hc p).
  destruct (c p) as [[a|e] p1]; simpl in *; [exact Hc|].
  rewrite (Hh e p1). exact Hc.
Qed.

Lemma silent_load_model name : silent (load_model name).
Proof.
  unfold load_model, load_model_try, load_model_setup.
  apply silent_try_except; [|intros; apply silent_ret].
  apply silent_bind; [apply silent_import|]. intros _.
  apply silent_bind; [apply silent_import|]. intros _.
  apply silent_bind; [apply silent_get_service|]. intros s.
  apply silent_bind.
  - destruct (models s !! name); [apply silent_ret|].
    apply silent_bind.
    + apply silent_bind; [apply silent_extern|]. intros t.
      apply silent_bind; [apply silent_torch_cuda|]. intros cuda.
      apply silent_bind; [apply silent_extern|]. intros m.
      apply silent_bind; [apply silent_torch_cuda|]. intros cuda'.
      apply silent_bind; [apply silent_extern|]. intros _. apply silent_ret.
    + intros h. apply silent_bind; [apply silent_get_service|]. intros s'.
      apply silent_put_service.
  - intros _. apply silent_bind; [apply silent_get_service|]. intros s'.
    apply silent_bind; [apply silent_put_service|]. intros _. apply silent_ret.
Qed.

(** X13: with [--prompt] and without [--install], [main] never raises.
    It returns 0 exactly when the load returned [True], and has then
    printed one thing, the generated text; when the load returned [False]
    it returns 1 and nothing has happened after the load or been printed. *)
Theorem main_prompt (argv : list string) (args : Args) (s : string) (p : Proc) :
  parse_args argv = inl args ->
  arg_install args = false ->
  arg_prompt args = Some s ->
  s <> EmptyString ->
  let l := load_model (arg_model args) (set_service init p) in
  (fst l = Ok true ->
     exists t,
       fst (generate_text (PStr s) (PInt (arg_max_length args))
              (PFloat (arg_temperature args)) (snd l)) = Ok t
       /\ fst (main argv p) = Ok 0%Z
       /\ stdout (snd (main argv p)) = stdout p ++ [t])
  /\ (fst l = Ok false -> main argv p = (Ok 1%Z, snd l) /\ stdout (snd l) = stdout p)
  /\ (fst l = Ok true \/ fst l = Ok false).
Proof.
  intros Hp Hi Hs Hne l.
  pose proof (silent_load_model (arg_model args) (set_service init p)) as Hsil.
  fold l in Hsil. cbn [set_service stdout] in Hsil.
  assert (Hmain : main argv p =
            match fst l with
            | Ok true =>
                match generate_text (PStr s) (PInt (arg_max_length args))
                        (PFloat (arg_temperature args)) (snd l) with
                | (Ok result, q) =>
                    (Ok 0%Z, mkProc (service q) (sys_modules q) (world q) (calls q)
                                    (stdout q ++ [result]))
                | (Raise e, q) => (Raise e, q)
                end
            | Ok false => (Ok 1%Z, snd l)
            | Raise e => (Raise e, snd l)
            end).
  { unfold main, bind, put_service, ret, print. rewrite Hp, Hi, Hs. cbn [negb truthy].
    destruct (String.eqb_spec s EmptyString) as [->|_]; [contradiction|]. cbn [negb].
    fold l. destruct l as [[[|]|e] q]; cbn [fst snd]; [|reflexivity|reflexivity].
    destruct (generate_text _ _ _ q) as [[t|e] q']; reflexivity. }
  split; [|split].
  - intros Hok. rewrite Hmain, Hok.
    destruct (generate_text_total s (PInt (arg_max_length args))
                (PFloat (arg_temperature args)) (snd l)) as [t Ht].
    pose proof (generate_text_leaves s (PInt (arg_max_length args))
                  (PFloat (arg_temperature args)) (snd l)) as Hproc.
    exists t. split; [exact Ht|].
    destruct (generate_text _ _ _ (snd l)) as [[t'|e] q]; cbn [fst snd] in *;
      [|discriminate].
    injection Ht as ->. split; [reflexivity|].
    rewrite <- Hsil. rewrite Hproc.
    destruct (current_handle (service (snd l))); reflexivity.
  - intros Hno. rewrite Hmain, Hno. split; [reflexivity|exact Hsil].
  - apply load_model_total.
Qed.

(** X14: without [--install], and with no prompt or an empty one, [main]
    returns 0 and does nothing but create the service object. *)
Theorem main_nothing_to_do (argv : list string) (args : Args) (p : Proc) :
  parse_args argv = inl args ->
  arg_install args = false ->
  arg_prompt args = None \/ arg_prompt args = Some EmptyString ->
  main argv p = (Ok 0%Z, set_service init p).
Proof.
  intros Hp Hi [Hn|Hn]; unfold main, bind, put_service, ret; rewrite Hp, Hi, Hn;
    reflexivity.
Qed.

(** X15: when [--install] is the first argument nothing else on the command
    line matters: the script ends as it does for [--install] alone, with
    code 0 or 1, and has loaded no model and printed nothing. *)
Theorem run_script_install_first_ignores_rest (argv : list string) (p : Proc) :
  argv !! 1%nat = Some "--install"%string ->
  run_script argv p = run_script [ "local_llm_service.py"; "--install" ]%string p
  /\ (fst (run_script argv p) = Exit 0 \/ fst (run_script argv p) = Exit 1)
  /\ service (snd (run_script argv p)) = init
  /\ setup_count (calls (snd (run_script argv p))) = setup_count (calls p)
  /\ stdout (snd (run_script argv p)) = stdout p.
Proof.
  intros Ha. unfold run_script. rewrite bool_decide_eq_true_2 by exact Ha.
  rewrite bool_decide_eq_true_2 by reflexivity.
  split; [reflexivity|]. unfold bind, put_service. cbn [fst snd].
  destruct (install_dependencies_frame (set_service init p))
    as (done & _ & _ & Hs & Hc & Ho & _).
  destruct (install_dependencies (set_service init p)) as [[b|e] q];
    cbn [exit_of fst snd] in *; auto.
Qed.

(** X16: when the pipeline returns a text, what [generate_text] returns
    neither begins nor ends with white space, and the pipeline's text is
    it with white space before and after. *)
Theorem generate_text_is_trimmed
    (s : string) (a b : pyval) (p : Proc) (h : Handle)
    (d : gmap string pyval) (rest : list pyval) (g : string) (w : World) :
  current_handle (service p) = Some h ->
  generator_call (generator h) (PStr s) (sampling (generator h) a b) (world p)
    = (Ok (PList (PDict d :: rest)), w) ->
  d !! "generated_text"%string = Some (PStr g) ->
  exists t l r,
    fst (generate_text (PStr s) a b p) = Ok t
    /\ g = l +:+ t +:+ r
    /\ PyStr.blank l = true /\ PyStr.blank r = true
    /\ str_trimmed t = true.
Proof.
  intros Hh Hcall Hd.
  destruct (PyStrFacts.strip_spec g) as (l & r & Hg & Hl & Hr).
  exists (PyStr.strip g), l, r.
  split; [exact (generate_text_pipeline_text s a b p h d rest g w Hh Hcall Hd)|].
  split; [exact Hg|]. split; [exact Hl|]. split; [exact Hr|].
  apply TextFacts.strip_trimmed.
Qed.

End CommandLine.

(** ** One setup per model, and what happens without the library *)
Section SetupOnce.
Context `{Collaborators}.
Local Open Scope py_scope.

Lemma setup_count_of_app name (a b : list Call) :
  setup_count_of name (a ++ b) = setup_count_of name a + setup_count_of name b.
Proof.
  induction a as [|c a IH]; simpl; [reflexivity|].
  destruct c; simpl; rewrite IH; lia.
Qed.

Lemma py_import_count_of name m p :
  setup_count_of name (calls (snd (py_import m p))) = setup_count_of name (calls p).
Proof.
  unfold py_import. case_bool_decide; [reflexivity|].
  destruct (exec_module m (world p)) as [[[]|e] w]; simpl;
    rewrite setup_count_of_app; simpl; lia.
Qed.

Lemma load_model_setup_count_of name other p :
  other <> name ->
  setup_count_of name (calls (snd (load_model_setup other p)))
  = setup_count_of name (calls p).
Proof.
  intros Hne. assert (E : String.eqb other name = false) by (apply String.eqb_neq; exact Hne).
  unfold load_model_setup, bind, extern, torch_cuda_is_available, ret. simpl.
  destruct (tokenizer_from_pretrained other "left" (world p)) as [[t|e] w1]; simpl;
    [|rewrite setup_count_of_app; simpl; rewrite E; lia].
  destruct (model_from_pretrained _ _ w1) as [[m|e] w2]; simpl;
    [|rewrite !setup_count_of_app; simpl; rewrite E; lia].
  destruct (pipeline_init _ w2) as [[[]|e] w3]; simpl;
    rewrite !setup_count_of_app; simpl; rewrite E; lia.
Qed.

Lemma load_model_count_of_other name other p :
  other <> name ->
  setup_count_of name (calls (snd (load_model other p)))
  = setup_count_of name (calls p).
Proof.
  intros Hne. rewrite load_model_unfold. cbn [snd].
  unfold load_model_try, bind, get_service, put_service, ret.
  pose proof (py_import_count_of name "transformers" p) as C1.
  destruct (py_import "transformers" p) as [[u1|e1] p1]; simpl in *; [|exact C1].
  pose proof (py_import_count_of name "torch" p1) as C2.
  destruct (py_import "torch" p1) as [[u2|e2] p2]; simpl in *; [|congruence].
  destruct (models (service p2) !! other) as [h0|]; simpl; [congruence|].
  pose proof (load_model_setup_count_of name other p2 Hne) as C3.
  destruct (load_model_setup other p2) as [[h|e] p3]; simpl in *; congruence.
Qed.

(** A generation adds at most one call, a call of the pipeline. *)
Lemma generate_text_calls a b c p :
  calls (snd (generate_text a b c p)) = calls p
  \/ calls (snd (generate_text a b c p)) = calls p ++ [CallGenerator a].
Proof.
  unfold generate_text, try_except, generate_text_try, bind, get_service, lift, extern, ret.
  destruct (current_model (service p)) as [cur|];
    [|destruct (generate_fallback_response a); left; reflexivity].
  destruct (models (service p) !! cur) as [h|];
    [|destruct (generate_fallback_response a); left; reflexivity].
  destruct (py_slice_to 100 a) as [sl|e]; [|left; reflexivity].
  destruct (generator_call _ _ _ (world p)) as [[responses|e] w]; cbn [fst snd];
    [|right; reflexivity].
  destruct (truthy responses);
    [|destruct (generate_fallback_response a); right; reflexivity].
  destruct (py_len responses) as [n|e]; [|right; reflexivity].
  destruct (0 <? n)%Z; [|destruct (generate_fallback_response a); right; reflexivity].
  destruct (py_getitem responses (PInt 0)) as [first|e]; [|right; reflexivity].
  destruct (py_getitem first (PStr "generated_text")) as [text|e]; [|right; reflexivity].
  destruct (py_strip text) as [t|e]; right; reflexivity.
Qed.

Lemma run_op_count_of name o p :
  reachable p ->
  name ∈ dom (models (service p)) ->
  setup_count_of name (calls (run_op o p)) = setup_count_of name (calls p).
Proof.
  intros Hreach [h L]%elem_of_dom. destruct o as [other|a b c]; simpl.
  - destruct (decide (other = name)) as [->|Hne]; [|apply load_model_count_of_other; exact Hne].
    destruct (reachable_ok p Hreach) as [_ Hmod].
    destruct Hmod as [Ht Hc]; [intros E; rewrite E, lookup_empty in L; discriminate|].
    rewrite (load_model_hit name p h Ht Hc L). reflexivity.
  - destruct (generate_text_calls a b c p) as [-> | ->]; [reflexivity|].
    rewrite setup_count_of_app. simpl. lia.
Qed.

(** X17: a model is set up once: from the moment a name is a key of the
    mapping in a reachable process, no sequence of loads and generations
    enters the setup path for that name again. *)
Theorem setup_once (name : string) (ops : list Op) (p : Proc) :
  reachable p ->
  name ∈ dom (models (service p)) ->
  setup_count_of name (calls (run_ops ops p)) = setup_count_of name (calls p).
Proof.
  revert p. induction ops as [|o ops IH]; intros p Hreach Hdom; [reflexivity|].
  unfold run_ops. simpl.
  change (foldl (fun q o0 => run_op o0 q) (run_op o p) ops) with (run_ops ops (run_op o p)).
  rewrite IH.
  - apply run_op_count_of; assumption.
  - apply reachable_step. exact Hreach.
  - apply elem_of_dom in Hdom as [h L]. apply elem_of_dom. exists h.
    exact (lookup_weaken _ _ _ _ L (run_op_keeps o p)).
Qed.

(** X18: when [transformers] or [torch] cannot be imported, [load_model]
    returns [False] without entering the setup path, and the service
    object is as it was. *)
Theorem load_model_without_library (name : string) (p : Proc) (e : Exn) :
  fst ((py_import "transformers" ;;; py_import "torch") p) = Raise e ->
  fst (load_model name p) = Ok false
  /\ setup_count (calls (snd (load_model name p))) = setup_count (calls p)
  /\ service (snd (load_model name p)) = service p.
Proof.
  intros Himp.
  assert (Hrun : fst (load_model name p) = Ok false
                 /\ setup_count (calls (snd (load_model name p))) = setup_count (calls p)).
  { revert Himp. rewrite load_model_unfold. cbn [fst snd].
    unfold load_model_try, bind.
    pose proof (py_import_count "transformers" p) as C1.
    destruct (py_import "transformers" p) as [[u1|e1] p1]; simpl in *; [|auto].
    pose proof (py_import_count "torch" p1) as C2.
    destruct (py_import "torch" p1) as [[u2|e2] p2]; simpl in *; [discriminate|].
    intros _. split; [reflexivity|congruence]. }
  destruct Hrun as [Hf Hc]. repeat split; [exact Hf|exact Hc|].
  exact (load_model_false_unchanged name p Hf).
Qed.

(** X19: while no model is usable, a prompt that is not a [str] makes
    [generate_text] raise [AttributeError]: the canned answer, computed
    again by the handler of the [try], needs [prompt.lower()]. *)
Theorem generate_text_prompt_not_str (prompt a b : pyval) (p : Proc) :
  current_handle (service p) = None ->
  (forall s, prompt <> PStr s) ->
  exists e, generate_text prompt a b p = (Raise e, p)
            /\ exn_class e = "AttributeError"%string.
Proof.
  intros Hh Hv. rewrite (generate_text_no_model_any prompt a b p Hh).
  pose proof (fallback_domain prompt) as Hd.
  destruct prompt; try (destruct Hd as (e & -> & He); exists e; split; [reflexivity|exact He]).
  exfalso. exact (Hv s eq_refl).
Qed.

End SetupOnce.

(** ** More runs in the two environments *)
Module MoreRuns.
Import Demo.

Lemma fallback_business_case_anywhere_witness :
  generate_fallback_response
    (PStr ("Please draft a " +:+ "Business CASE" +:+ " for the migration"))
  = Ok business_case_template.
Proof.
  apply (fallback_business_case_anywhere "Please draft a " "Business CASE"
           " for the migration").
  vm_compute. reflexivity.
Defined.

Lemma fallback_feasibility_anywhere_witness :
  generate_fallback_response
    (PStr ("Is this a question of " +:+ "FEASIBILITY" +:+ "?"))
  = Ok feasibility_template.
Proof.
  apply (fallback_feasibility_anywhere "Is this a question of " "FEASIBILITY" "?");
    vm_compute; reflexivity.
Defined.

Lemma install_dependencies_pip_calls_witness :
  @install_dependencies offline (@boot offline tt) =
  (Ok false,
   @mkProc offline (@init offline) ∅ tt
     [CallExecModule "transformers"; CallPip "transformers>=4.35.0"] []).
Proof.
  exact (proj2 (@install_dependencies_pip_calls offline (@boot offline tt)
                  (mkExn "ModuleNotFoundError" "No module named transformers")
                  eq_refl eq_refl)
           [] "transformers>=4.35.0"%string
           [ "torch>=2.0.0"; "sentencepiece>=0.1.99"; "accelerate>=0.20.0" ]%string
           tt (mkExn "CalledProcessError" "returned non-zero exit status 1") tt
           eq_refl eq_refl eq_refl).
Defined.

Lemma install_dependencies_when_imported_witness :
  @install_dependencies online loaded = (Ok true, loaded).
Proof.
  apply (@install_dependencies_when_imported online loaded);
    vm_compute; reflexivity.
Defined.

Lemma registry_never_evicts_witness :
  is_Some (models (service (@run_ops online
                              [OpLoad "gpt2"; OpGenerate (PStr "ping") (PInt 5) PNone;
                               OpLoad "gpt2"] loaded)) !! dialogpt).
Proof.
  destruct (models (@service online loaded) !! dialogpt) as [h|] eqn:L;
    [|vm_compute in L; discriminate L].
  exists h.
  exact (@registry_never_evicts online
           [OpLoad "gpt2"; OpGenerate (PStr "ping") (PInt 5) PNone; OpLoad "gpt2"]
           loaded dialogpt h L).
Defined.

Lemma handles_coherent_witness :
  exists h, models (@service online loaded) !! dialogpt = Some h
            /\ @handle_coherent online h.
Proof.
  destruct (models (@service online loaded) !! dialogpt) as [h|] eqn:L;
    [|vm_compute in L; discriminate L].
  exists h. split; [reflexivity|].
  exact (@handles_coherent online loaded dialogpt h Runs.loaded_reachable L).
Defined.

Lemma load_model_selects_witness :
  exists h, @current_handle online (@service online loaded) = Some h.
Proof.
  destruct (@load_model_selects online dialogpt (@boot online 0%nat))
    as (h & _ & _ & Hh); [vm_compute; reflexivity|].
  exists h. exact Hh.
Defined.

Lemma http_generate_body_not_object_witness :
  exists r, @http_generate_text online (Ok (PList [])) loaded = (Ok r, loaded)
    /\ status r = 500%Z
    /\ json r !! "status"%string = Some (PStr "error").
Proof.
  apply (@http_generate_body_not_object online (PList []) loaded). discriminate.
Defined.

Lemma http_generate_prompt_not_str_witness :
  exists r, @http_generate_text online
              (Ok (PDict {[ "prompt"%string := PInt 5 ]})) (@boot online 0%nat)
            = (Ok r, @boot online 0%nat)
    /\ status r = 500%Z
    /\ json r !! "status"%string = Some (PStr "error").
Proof.
  apply (@http_generate_prompt_not_str online
           {[ "prompt"%string := PInt 5 ]} (PInt 5) (@boot online 0%nat)).
  - reflexivity.
  - apply lookup_singleton_eq.
  - reflexivity.
  - discriminate.
Defined.

(** The request of a feasibility study is answered from the template. *)
Lemma server_answers_from_templates_witness :
  exists fb,
    PyStr.contains "Feasibility Assessment" fb = true
    /\ fst (@http_generate_text online
              (Ok (PDict {[ "prompt"%string := PStr "Give me a feasibility study" ]}))
              (@serve online [Ok (PDict ∅); Ok PNone]
                 (snd (@start_server online (@boot online 0%nat)))))
       = Ok (mkResponse 200 (<[ "generated_text"%string := PStr fb ]>
                               {[ "status"%string := PStr "success" ]})).
Proof.
  destruct (@server_answers_from_templates online (@boot online 0%nat)
              [Ok (PDict ∅); Ok PNone]
              {[ "prompt"%string := PStr "Give me a feasibility study" ]}
              "Give me a feasibility study")
    as (_ & fb & Hfb & Hrun).
  - vm_compute. reflexivity.
  - apply lookup_singleton_eq.
  - discriminate.
  - exists fb. split; [|rewrite Hrun; reflexivity].
    vm_compute in Hfb. injection Hfb as <-. vm_compute. reflexivity.
Defined.

Lemma main_prompt_witness :
  fst (@main online [ "--prompt"; "ping" ]%string (@boot online 0%nat)) = Ok 0%Z
  /\ exists t, stdout (snd (@main online [ "--prompt"; "ping" ]%string (@boot online 0%nat)))
               = [] ++ [t].
Proof.
  destruct (@main_prompt online [ "--prompt"; "ping" ]%string
              (mkArgs false dialogpt (Some "ping"%string) 800 (7 # 10)) "ping"
              (@boot online 0%nat))
    as (Hok & _ & _).
  - vm_compute. reflexivity.
  - reflexivity.
  - reflexivity.
  - discriminate.
  - destruct Hok as (t & _ & Hret & Hout); [vm_compute; reflexivity|].
    split; [exact Hret|]. exists t. exact Hout.
Defined.

Lemma main_nothing_to_do_witness :
  @main online [] (@boot online 0%nat) = (Ok 0%Z, set_service init (@boot online 0%nat)).
Proof.
  apply (@main_nothing_to_do online [] defaults (@boot online 0%nat)).
  - reflexivity.
  - reflexivity.
  - left. reflexivity.
Defined.

Lemma run_script_install_first_ignores_rest_witness :
  @run_script offline
    [ "local_llm_service.py"; "--install"; "--prompt"; "hello" ]%string (@boot offline tt)
  = @run_script offline [ "local_llm_service.py"; "--install" ]%string (@boot offline tt).
Proof.
  apply (@run_script_install_first_ignores_rest offline
           [ "local_llm_service.py"; "--install"; "--prompt"; "hello" ]%string
           (@boot offline tt)).
  reflexivity.
Defined.

Lemma generate_text_is_trimmed_witness :
  exists t, fst (@generate_text online (PStr "ping") (PInt 800) (PFloat (7 # 10)) loaded)
            = Ok t
    /\ str_trimmed t = true.
Proof.
  destruct (@current_handle online (@service online loaded)) as [h|] eqn:Hh;
    [|vm_compute in Hh; discriminate Hh].
  destruct (@generate_text_is_trimmed online "ping" (PInt 800) (PFloat (7 # 10)) loaded h
              {[ "generated_text"%string := PStr "  pong
" ]} [] "  pong
" 1%nat Hh)
    as (t & _ & _ & Ht & _ & _ & _ & Htr).
  - reflexivity.
  - apply lookup_singleton_eq.
  - exists t. split; assumption.
Defined.

Lemma setup_once_witness :
  setup_count_of dialogpt
    (calls (@run_ops online
              [OpLoad dialogpt; OpGenerate (PStr "ping") (PInt 5) PNone;
               OpLoad "gpt2"; OpLoad dialogpt] loaded))
  = setup_count_of dialogpt (calls loaded).
Proof.
  apply (@setup_once online dialogpt
           [OpLoad dialogpt; OpGenerate (PStr "ping") (PInt 5) PNone;
            OpLoad "gpt2"; OpLoad dialogpt] loaded Runs.loaded_reachable).
  apply elem_of_dom. eexists. vm_compute. reflexivity.
Defined.

Lemma load_model_without_library_witness :
  fst (@load_model offline dialogpt (@boot offline tt)) = Ok false
  /\ setup_count (calls (snd (@load_model offline dialogpt (@boot offline tt)))) = 0%nat
  /\ service (snd (@load_model offline dialogpt (@boot offline tt))) = init.
Proof.
  apply (@load_model_without_library offline dialogpt (@boot offline tt)
           (mkExn "ModuleNotFoundError" "No module named transformers")).
  vm_compute. reflexivity.
Defined.

Lemma generate_text_prompt_not_str_witness :
  exists e, @generate_text online (PList [PStr "ping"]) (PInt 5) PNone (@boot online 0%nat)
            = (Raise e, @boot online 0%nat)
            /\ exn_class e = "AttributeError"%string.
Proof.
  apply (@generate_text_prompt_not_str online (PList [PStr "ping"]) (PInt 5) PNone
           (@boot online 0%nat)).
  - reflexivity.
  - discriminate.
Defined.

End MoreRuns.
